(** * The InsightIDR request pipeline: configuration, client and handler

    A shallow embedding of [config.ts] ([getConfig]), [client.ts]
    ([Rapid7Client.request], [handleErrorResponse], the typed accessors the
    investigation handler uses) and of the [get_investigation] tool handler,
    with the properties the specification states about them.

    Conventions.
    - A JavaScript string is a [string]; a character stands for one code
      unit below 256 (the Latin-1 range).
    - What the host provides (the URL parser, [fetch]) is a [Runtime] the
      definitions take as an argument; timers are a table in a [World] that
      is passed along explicitly.
    - A [throw] is the [Throw] case of [Result]. *)

From Stdlib Require Import Ascii.
From stdpp Require Import base numbers option list strings pretty gmap.

Set Warnings "-register-all".
Local Open Scope Z_scope.

(** ** Strings *)

Module Str.

Definition chr (n : nat) : ascii := Ascii.ascii_of_nat n.
Definition code (c : ascii) : nat := Ascii.nat_of_ascii c.

Definition eqb_char (a b : ascii) : bool := Ascii.eqb a b.

(** [s.endsWith(c)] for a single character. *)
Fixpoint ends_with (c : ascii) (s : string) : bool :=
  match s with
  | EmptyString => false
  | String a EmptyString => eqb_char a c
  | String _ rest => ends_with c rest
  end.

(** [sub] occurs in [s] ([s.includes(sub)]), as a proposition. *)
Definition contains (sub s : string) : Prop :=
  ∃ pre post, s = pre +:+ sub +:+ post.

Fixpoint join (sep : string) (l : list string) : string :=
  match l with
  | [] => EmptyString
  | [x] => x
  | x :: rest => x +:+ sep +:+ join sep rest
  end.

(** [c.toLowerCase()] on a code unit below 256. *)
Definition lower_char (c : ascii) : ascii :=
  let n := code c in
  if ((65 <=? n) && (n <=? 90))%nat then chr (n + 32)
  else if ((192 <=? n) && (n <=? 222) && negb (n =? 215))%nat then chr (n + 32)
  else c.

Fixpoint toLowerCase (s : string) : string :=
  match s with
  | EmptyString => EmptyString
  | String c rest => String (lower_char c) (toLowerCase rest)
  end.

(** The regular expression [/\/+$/] matches the maximal run of slashes that
    ends the input; [strip_trailing_slashes s] is
    [s.replace(/\/+$/, "")]. *)
Fixpoint strip_trailing_slashes (s : string) : string :=
  match s with
  | EmptyString => EmptyString
  | String c rest =>
      match strip_trailing_slashes rest with
      | EmptyString => if eqb_char c "/" then EmptyString else String c EmptyString
      | kept => String c kept
      end
  end.

Definition hex_digit (n : nat) : ascii :=
  match n with
  | 0 => "0" | 1 => "1" | 2 => "2" | 3 => "3" | 4 => "4" | 5 => "5"
  | 6 => "6" | 7 => "7" | 8 => "8" | 9 => "9" | 10 => "A" | 11 => "B"
  | 12 => "C" | 13 => "D" | 14 => "E" | _ => "F"
  end%nat%char.

Definition hex_byte (n : nat) : string :=
  String (hex_digit (n / 16)) (String (hex_digit (n mod 16)) EmptyString).

Definition is_digit (c : ascii) : bool :=
  let n := code c in ((48 <=? n) && (n <=? 57))%nat.

Definition digit_value (c : ascii) : Z := Z.of_nat (code c - 48).

Definition is_alnum (c : ascii) : bool :=
  let n := code c in
  (((48 <=? n) && (n <=? 57)) || ((65 <=? n) && (n <=? 90))
   || ((97 <=? n) && (n <=? 122)))%nat.

(** White space and line terminators of the language, among the code
    units below 256: TAB, LF, VT, FF, CR, SP and NBSP. *)
Definition is_space (c : ascii) : bool :=
  let n := code c in
  (((9 <=? n) && (n <=? 13)) || (n =? 32) || (n =? 160))%nat.

Fixpoint skip_spaces (s : string) : string :=
  match s with
  | String c rest => if is_space c then skip_spaces rest else s
  | EmptyString => EmptyString
  end.

Fixpoint concat_map (f : ascii → string) (s : string) : string :=
  match s with
  | EmptyString => EmptyString
  | String c rest => f c +:+ concat_map f rest
  end.

End Str.

(** ** Numbers and values *)

(** A JavaScript number. [Int z] is the integer [z], which [String()] prints
    in decimal (the sign of zero is not kept; none of the operations below
    observes it). [Frac shown] is any other finite number (a fraction, or an
    integer of magnitude 1e21 and more, printed with an exponent), carried
    by the text [String()] gives it. *)
Inductive JsNumber : Type :=
  | NaN
  | Infinity (negative : bool)
  | Int (z : Z)
  | Frac (shown : string).

Definition number_to_string (n : JsNumber) : string :=
  match n with
  | NaN => "NaN"
  | Infinity false => "Infinity"
  | Infinity true => "-Infinity"
  | Int z => pretty z
  | Frac shown => shown
  end.

Definition number_truthy (n : JsNumber) : bool :=
  match n with
  | NaN => false
  | Int z => negb (z =? 0)
  | _ => true
  end.

(** The values a JSON document decodes to, and [undefined]. An object is
    the list of its own properties, in the order the language enumerates
    them. *)
Inductive JsValue : Type :=
  | JUndefined
  | JNull
  | JBool (b : bool)
  | JNum (n : JsNumber)
  | JStr (s : string)
  | JArr (items : list JsValue)
  | JObj (props : list (string * JsValue)).

Definition truthy (v : JsValue) : bool :=
  match v with
  | JUndefined | JNull => false
  | JBool b => b
  | JNum n => number_truthy n
  | JStr s => negb (String.eqb s EmptyString)
  | JArr _ | JObj _ => true
  end.

Fixpoint lookup_prop (key : string) (props : list (string * JsValue)) : option JsValue :=
  match props with
  | [] => None
  | (k, v) :: rest => if String.eqb k key then Some v else lookup_prop key rest
  end.

Definition has_prop (key : string) (props : list (string * JsValue)) : bool :=
  match lookup_prop key props with Some _ => true | None => false end.

(** [v[key]] for the property names this program reads ([message], [data],
    and the fields of an investigation): none of them is defined on a
    prototype, so the read gives an own property of an object or
    [undefined]; on [null] and [undefined] it throws a [TypeError], which is
    [None] here. *)
Definition get_prop (v : JsValue) (key : string) : option JsValue :=
  match v with
  | JUndefined | JNull => None
  | JObj props => Some (default JUndefined (lookup_prop key props))
  | _ => Some JUndefined
  end.

(** [String(v)], the coercion a template literal applies; [None] is the
    [TypeError] of an object that cannot be converted to a primitive: a
    decoded object whose own [toString] property hides the inherited
    method. An array prints its elements joined by commas, [null] and
    [undefined] as nothing. *)
Fixpoint to_string (v : JsValue) : option string :=
  match v with
  | JUndefined => Some "undefined"
  | JNull => Some "null"
  | JBool true => Some "true"
  | JBool false => Some "false"
  | JNum n => Some (number_to_string n)
  | JStr s => Some s
  | JArr items =>
      let element x :=
        match x with
        | JUndefined | JNull => Some EmptyString
        | _ => to_string x
        end in
      Str.join "," <$> mapM element items
  | JObj props =>
      if has_prop "toString" props then None else Some "[object Object]"
  end.

(** [parseInt(s, 10)]: leading white space is skipped, one sign is read,
    then the longest run of decimal digits; [None] is [NaN] (no digit). The
    value is the integer the digits spell, which is what the language
    returns as long as it fits a double exactly (below 2^53). *)
Fixpoint read_digits (acc : Z) (s : string) : Z :=
  match s with
  | String c rest =>
      if Str.is_digit c then read_digits (10 * acc + Str.digit_value c) rest
      else acc
  | EmptyString => acc
  end.

Definition starts_with_digit (s : string) : bool :=
  match s with
  | String c _ => Str.is_digit c
  | EmptyString => false
  end.

Definition parseInt10 (s : string) : option Z :=
  let trimmed := Str.skip_spaces s in
  let '(sign, digits) :=
    match trimmed with
    | String "-" rest => (-1, rest)
    | String "+" rest => (1, rest)
    | _ => (1, trimmed)
    end in
  if starts_with_digit digits then Some (sign * read_digits 0 digits) else None.

Definition number_of_parse (r : option Z) : JsNumber :=
  match r with
  | Some z => Int z
  | None => NaN
  end.

(** ** [JSON.stringify] *)

Module Json.

Definition lower_hex (n : nat) : ascii :=
  match n with
  | 10 => "a" | 11 => "b" | 12 => "c" | 13 => "d" | 14 => "e" | 15 => "f"
  | _ => Str.hex_digit n
  end%nat%char.

Definition quote_mark : string := String (Str.chr 34) EmptyString.
Definition backslash : string := String (Str.chr 92) EmptyString.
Definition escaped (s : string) : string := backslash +:+ s.

Definition escape_char (c : ascii) : string :=
  let n := Str.code c in
  match n with
  | 8 => escaped "b" | 9 => escaped "t" | 10 => escaped "n"
  | 12 => escaped "f" | 13 => escaped "r"
  | 34 => escaped quote_mark
  | 92 => escaped backslash
  | _ =>
      if (n <? 32)%nat
      then escaped ("u00" +:+ String (lower_hex (n / 16))
                               (String (lower_hex (n mod 16)) EmptyString))
      else String c EmptyString
  end%nat.

Definition quote (s : string) : string :=
  quote_mark +:+ Str.concat_map escape_char s +:+ quote_mark.

Definition number (n : JsNumber) : string :=
  match n with
  | NaN | Infinity _ => "null"
  | _ => number_to_string n
  end.

Definition newline : string := String (Str.chr 10) EmptyString.

Definition wrap (opening closing gap stepback indent : string)
    (partial : list string) : string :=
  match partial with
  | [] => opening +:+ closing
  | _ =>
      if String.eqb gap EmptyString
      then opening +:+ Str.join "," partial +:+ closing
      else opening +:+ newline +:+ indent
           +:+ Str.join ("," +:+ newline +:+ indent) partial
           +:+ newline +:+ stepback +:+ closing
  end.

(** [serialize gap indent v] is the text of [v] at the current
    indentation; [None] is [undefined] (nothing to print). A property
    whose value is [undefined] is left out of an object, and an
    [undefined] element of an array prints as [null]. *)
Fixpoint serialize (gap indent : string) (v : JsValue) : option string :=
  match v with
  | JUndefined => None
  | JNull => Some "null"
  | JBool true => Some "true"
  | JBool false => Some "false"
  | JNum n => Some (number n)
  | JStr s => Some (quote s)
  | JArr items =>
      let inner := indent +:+ gap in
      let element x := default "null" (serialize gap inner x) in
      Some (wrap "[" "]" gap indent inner (element <$> items))
  | JObj props =>
      let inner := indent +:+ gap in
      let member (kv : string * JsValue) :=
        (λ text, quote kv.1 +:+ ":"
                 +:+ (if String.eqb gap EmptyString then EmptyString else " ")
                 +:+ text) <$> serialize gap inner kv.2 in
      Some (wrap "{" "}" gap indent inner (omap member props))
  end.

(** [JSON.stringify(v)] *)
Definition stringify (v : JsValue) : option string :=
  serialize EmptyString EmptyString v.

End Json.

(** ** Outcomes and errors *)

Inductive ErrorClass : Type :=
  | PlainError
  | TypeError
  | SyntaxError
  | DOMException
  | ClientError
  | AuthError
  | RateLimitError.

(** An instance of [Error]. [statusCode] and [retryAfter] are the optional
    fields of the client's error classes, [None] when [undefined]. *)
Record JsError : Type := mkError {
  err_class : ErrorClass;
  err_name : string;
  err_message : string;
  statusCode : option Z;
  retryAfter : option JsNumber;
}.

Inductive Result (A : Type) : Type :=
  | Return (a : A)
  | Throw (e : JsError).
Arguments Return {A} a.
Arguments Throw {A} e.

#[global] Instance Result_ret : MRet Result := λ A a, Return a.
#[global] Instance Result_bind : MBind Result := λ A B k r,
  match r with
  | Return a => k a
  | Throw e => Throw e
  end.

(** [try { body } catch (error) { handler }] *)
Definition try_catch {A : Type} (body : Result A) (handler : JsError → Result A)
    : Result A :=
  match body with
  | Return a => Return a
  | Throw e => handler e
  end.

Definition new_Error (message : string) : JsError :=
  mkError PlainError "Error" message None None.
Definition new_TypeError (message : string) : JsError :=
  mkError TypeError "TypeError" message None None.

(** [class Rapid7ClientError extends Error] *)
Definition Rapid7ClientError (message : string) (status : option Z) : JsError :=
  mkError ClientError "Rapid7ClientError" message status None.

(** [class Rapid7AuthError extends Rapid7ClientError] *)
Definition Rapid7AuthError (message : string) (status : option Z) : JsError :=
  mkError AuthError "Rapid7AuthError" message status None.

(** [class Rapid7RateLimitError extends Rapid7ClientError]: the constructor
    passes 429 to the base class. *)
Definition Rapid7RateLimitError (message : string) (retry : option JsNumber)
    : JsError :=
  mkError RateLimitError "Rapid7RateLimitError" message (Some 429) retry.

(** ** Configuration ([config.ts]) *)

Record Rapid7Config : Type := mkConfig {
  baseUrl : string;
  apiKey : string;
  region : string;
  timeout : JsNumber;
}.

Definition REGION_URLS : list (string * string) :=
  [ ("us", "https://us.api.insight.rapid7.com");
    ("us2", "https://us2.api.insight.rapid7.com");
    ("us3", "https://us3.api.insight.rapid7.com");
    ("eu", "https://eu.api.insight.rapid7.com");
    ("ca", "https://ca.api.insight.rapid7.com");
    ("au", "https://au.api.insight.rapid7.com");
    ("ap", "https://ap.api.insight.rapid7.com") ].

(** The names every object inherits from [Object.prototype]; under each of
    them sits a function or an object, never a string. *)
Definition Object_prototype_names : list string :=
  [ "constructor"; "__proto__"; "hasOwnProperty"; "isPrototypeOf";
    "propertyIsEnumerable"; "toLocaleString"; "toString"; "valueOf";
    "__defineGetter__"; "__defineSetter__"; "__lookupGetter__";
    "__lookupSetter__" ].

Inductive RegionEntry : Type :=
  | EntryUrl (url : string)
  | EntryInherited
  | EntryUndefined.

Fixpoint assoc (key : string) (table : list (string * string)) : option string :=
  match table with
  | [] => None
  | (k, v) :: rest => if String.eqb k key then Some v else assoc key rest
  end.

(** [REGION_URLS[region]] *)
Definition region_entry (region : string) : RegionEntry :=
  match assoc region REGION_URLS with
  | Some url => EntryUrl url
  | None =>
      if existsb (String.eqb region) Object_prototype_names
      then EntryInherited else EntryUndefined
  end.

(** [!s] for an optional string: [undefined] and the empty string. *)
Definition falsy_string (s : option string) : bool :=
  match s with
  | None => true
  | Some t => String.eqb t EmptyString
  end.

Definition missing_key_message : string :=
  "RAPID7_API_KEY environment variable is required. "
  +:+ "Generate an API key from InsightIDR > Settings > API Keys.".

Definition unknown_region_message (region : string) : string :=
  "Unknown RAPID7_REGION '" +:+ region +:+ "'. "
  +:+ "Valid regions: " +:+ Str.join ", " REGION_URLS.*1 +:+ ". "
  +:+ "Or set RAPID7_BASE_URL directly.".

(** [getConfig()], over the process environment. *)
Definition getConfig (env : gmap string string) : Result Rapid7Config :=
  let apiKey := env !! "RAPID7_API_KEY" in
  if falsy_string apiKey then Throw (new_Error missing_key_message) else
  let region :=
    Str.toLowerCase
      (if falsy_string (env !! "RAPID7_REGION") then "us"
       else default EmptyString (env !! "RAPID7_REGION")) in
  baseUrl ←
    (if falsy_string (env !! "RAPID7_BASE_URL") then
       match region_entry region with
       | EntryUrl url =>
           if String.eqb url EmptyString
           then Throw (new_Error (unknown_region_message region))
           else Return (Some url)
       | EntryInherited => Return None
       | EntryUndefined => Throw (new_Error (unknown_region_message region))
       end
     else Return (env !! "RAPID7_BASE_URL"));
  let timeout :=
    match parseInt10 (default "30" (env !! "RAPID7_TIMEOUT")) with
    | Some seconds => Int (seconds * 1000)
    | None => NaN
    end in
  match baseUrl with
  | Some url =>
      Return (mkConfig (Str.strip_trailing_slashes url)
                       (default EmptyString apiKey) region timeout)
  | None => Throw (new_TypeError "baseUrl.replace is not a function")
  end.

(** ** The host: URLs, responses, timers *)

(** A parsed URL: what comes before the query, the query text ([None] when
    the URL has none), the list behind [url.searchParams], the fragment. *)
Record URL : Type := mkURL {
  url_head : string;
  url_query : option string;
  url_params : list (string * string);
  url_fragment : option string;
}.

Module Url.

(** The [application/x-www-form-urlencoded] byte serializer: letters,
    digits and [*-._] stay, a space becomes [+], any other byte of the
    UTF-8 encoding is percent-encoded. *)
Definition encode_char (c : ascii) : string :=
  let n := Str.code c in
  if Str.is_alnum c || existsb (Str.eqb_char c) ["*"; "-"; "."; "_"]%char
  then String c EmptyString
  else if (n =? 32)%nat then "+"
  else if (n <? 128)%nat then "%" +:+ Str.hex_byte n
  else "%" +:+ Str.hex_byte (192 + n / 64) +:+ "%" +:+ Str.hex_byte (128 + n mod 64).

Definition encode (s : string) : string := Str.concat_map encode_char s.

Definition serialize (pairs : list (string * string)) : string :=
  Str.join "&" ((λ kv, encode kv.1 +:+ "=" +:+ encode kv.2) <$> pairs).

(** [searchParams.set(name, value)] on the list: the first pair of that
    name takes the value and the later ones go; without one, the pair is
    appended. *)
Fixpoint set_pair (name value : string) (pairs : list (string * string))
    : list (string * string) :=
  match pairs with
  | [] => [(name, value)]
  | (k, v) :: rest =>
      if String.eqb k name
      then (k, value) :: filter (λ kv, negb (String.eqb kv.1 name)) rest
      else (k, v) :: set_pair name value rest
  end.

(** [url.searchParams.set(name, value)]: the list changes and the query
    of the URL becomes its serialization. *)
Definition searchParams_set (name value : string) (u : URL) : URL :=
  let pairs := set_pair name value (url_params u) in
  mkURL (url_head u) (Some (serialize pairs)) pairs (url_fragment u).

(** [url.toString()] *)
Definition toString (u : URL) : string :=
  url_head u
  +:+ (match url_query u with Some q => "?" +:+ q | None => EmptyString end)
  +:+ (match url_fragment u with Some f => "#" +:+ f | None => EmptyString end).

(** The URL carries no query of its own. *)
Definition no_query (u : URL) : Prop :=
  url_query u = None ∧ url_params u = [].

End Url.

(** A [Response]: [json] is what [response.json()] settles to. *)
Record Response : Type := mkResponse {
  status : Z;
  statusText : string;
  headers : list (string * string);
  json : Result JsValue;
}.

(** [response.ok] *)
Definition ok (r : Response) : bool :=
  (200 <=? status r) && (status r <=? 299).

(** [headers.get(name)]: names compare without regard to case, several
    values of one name are joined by a comma and a space, [None] is
    [null]. *)
Definition headers_get (name : string) (hs : list (string * string))
    : option string :=
  let same (kv : string * string) :=
    String.eqb (Str.toLowerCase kv.1) (Str.toLowerCase name) in
  match filter same hs with
  | [] => None
  | found => Some (Str.join ", " found.*2)
  end.

(** The argument of [fetch]: URL and the [init] object, less the signal,
    which the timer table stands for. [fc_body] is [None] when the [body]
    key is [undefined]. *)
Record FetchCall : Type := mkFetchCall {
  fc_url : string;
  fc_method : string;
  fc_headers : list (string * string);
  fc_body : option string;
}.

(** How the awaited [fetch] settles: with a response, with a rejection of
    its own (a network error), or because the timer of the call fired and
    aborted it. *)
Inductive FetchOutcome : Type :=
  | Responds (r : Response)
  | Rejects (e : JsError)
  | TimerFires.

(** The rejection of an aborted [fetch]. *)
Definition abort_error : JsError :=
  mkError DOMException "AbortError" "This operation was aborted" None None.

(** What the host provides: [new URL(text)], [None] when it throws its
    [TypeError], and [fetch]. *)
Record Runtime : Type := mkRuntime {
  new_URL : string → option URL;
  fetch : FetchCall → FetchOutcome;
}.

(** The part of the host a call changes: the timer table (the next
    identifier, and the timers that are set and have neither fired nor been
    cleared) and the calls handed to [fetch] so far, oldest first. *)
Record World : Type := mkWorld {
  next_timer : nat;
  pending : gset nat;
  sent : list FetchCall;
}.

Definition setTimeout (w : World) : nat * World :=
  (next_timer w,
   mkWorld (S (next_timer w)) (pending w ∪ {[ next_timer w ]}) (sent w)).

Definition clearTimeout (id : nat) (w : World) : World :=
  mkWorld (next_timer w) (pending w ∖ {[ id ]}) (sent w).

(** A timer that fires leaves the table. *)
Definition fire (id : nat) (w : World) : World :=
  mkWorld (next_timer w) (pending w ∖ {[ id ]}) (sent w).

Definition record_call (call : FetchCall) (w : World) : World :=
  mkWorld (next_timer w) (pending w) (sent w ++ [call]).

(** Identifiers not yet handed out are not in the table. *)
Definition World_ok (w : World) : Prop :=
  ∀ id, id ∈ pending w → (id < next_timer w)%nat.

(** ** The client ([client.ts]) *)

(** A value of a query-parameter mapping. *)
Inductive ParamValue : Type :=
  | PString (s : string)
  | PNumber (n : JsNumber)
  | PBoolean (b : bool)
  | PUndefined
  | PNull.

(** [value !== undefined && value !== null] *)
Definition present (v : ParamValue) : bool :=
  match v with
  | PUndefined | PNull => false
  | _ => true
  end.

(** [String(value)] *)
Definition param_to_string (v : ParamValue) : string :=
  match v with
  | PString s => s
  | PNumber n => number_to_string n
  | PBoolean true => "true"
  | PBoolean false => "false"
  | PUndefined => "undefined"
  | PNull => "null"
  end.

(** A mapping is the list [Object.entries] gives for it, so no key occurs
    twice; [None] is an absent [params] argument. *)
Definition Params : Type := option (list (string * ParamValue)).

Section Client.

Variable rt : Runtime.
Variable config : Rapid7Config.

(** The loop over [Object.entries(params)]. *)
Definition set_params (entries : list (string * ParamValue)) (u : URL) : URL :=
  foldl (λ url kv,
           if present kv.2
           then Url.searchParams_set kv.1 (param_to_string kv.2) url
           else url)
        u entries.

(** The URL of a request: [new URL(baseUrl + endpoint)] with the present
    parameters set; [None] when the parser rejects the text. *)
Definition request_url (endpoint : string) (params : Params) : option URL :=
  u ← new_URL rt (baseUrl config +:+ endpoint);
  Some (match params with
        | Some entries => set_params entries u
        | None => u
        end).

Definition request_headers : list (string * string) :=
  [ ("X-Api-Key", apiKey config);
    ("Content-Type", "application/json");
    ("Accept", "application/json") ].

(** [body ? JSON.stringify(body) : undefined] *)
Definition request_body (body : JsValue) : option string :=
  if truthy body then Json.stringify body else None.

Definition fetch_call (method : string) (url : URL) (body : JsValue)
    : FetchCall :=
  mkFetchCall (Url.toString url) method request_headers (request_body body).

Definition timeout_error : JsError :=
  Rapid7ClientError
    ("InsightIDR API timeout after " +:+ number_to_string (timeout config) +:+ "ms")
    None.

(** [error instanceof Error && error.name === "AbortError"]; every value
    of [JsError] is an instance of [Error]. *)
Definition is_abort (e : JsError) : bool :=
  String.eqb (err_name e) "AbortError".

(** The message of an error response: status and status text, and the
    [message] of the body when the body decodes and has a truthy one.
    Whatever is thrown on the way is swallowed. *)
Definition error_message (response : Response) : string :=
  let errorMsg :=
    number_to_string (Int (status response)) +:+ " " +:+ statusText response in
  match json response with
  | Return errorBody =>
      match get_prop errorBody "message" with
      | Some message =>
          if truthy message then
            match to_string message with
            | Some text => errorMsg +:+ ": " +:+ text
            | None => errorMsg
            end
          else errorMsg
      | None => errorMsg
      end
  | Throw _ => errorMsg
  end.

(** [handleErrorResponse(response)] always throws; this is what it
    throws. *)
Definition handleErrorResponse (response : Response) : JsError :=
  let errorMsg := error_message response in
  if (status response =? 401) || (status response =? 403) then
    Rapid7AuthError ("Authentication failed: " +:+ errorMsg)
                    (Some (status response))
  else if status response =? 429 then
    let retryAfter := headers_get "Retry-After" (headers response) in
    Rapid7RateLimitError
      ("Rate limited: " +:+ errorMsg)
      (if falsy_string retryAfter then None
       else Some (number_of_parse (parseInt10 (default EmptyString retryAfter))))
  else
    Rapid7ClientError ("Request failed: " +:+ errorMsg)
                      (Some (status response)).

(** What the [try] around the awaited [fetch] sees: the response, or the
    rejection caught. The call is handed to the host; when the timer
    fires it leaves the table and the call is rejected with the abort
    error. *)
Definition await_fetch (call : FetchCall) (timeoutId : nat) (w : World)
    : World * (Response + JsError) :=
  let w := record_call call w in
  match fetch rt call with
  | Responds r => (w, inl r)
  | Rejects e => (w, inr e)
  | TimerFires => (fire timeoutId w, inr abort_error)
  end.

(** [request(method, endpoint, params, body)] *)
Definition request (method endpoint : string) (params : Params)
    (body : JsValue) (w : World) : World * Result JsValue :=
  match request_url endpoint params with
  | None => (w, Throw (new_TypeError "Invalid URL"))
  | Some url =>
      (* createAbortSignal *)
      let '(timeoutId, w) := setTimeout w in
      let clear := clearTimeout timeoutId in
      match await_fetch (fetch_call method url body) timeoutId w with
      | (w, inr error) =>
          let w := clear w in
          if is_abort error then (w, Throw timeout_error)
          else (w, Throw error)
      | (w, inl response) =>
          let w := clear w in
          if negb (ok response) then (w, Throw (handleErrorResponse response))
          else if status response =? 204 then (w, Return (JObj []))
          else (w, json response)
      end
  end.

Definition get (endpoint : string) (params : Params) :=
  request "GET" endpoint params JUndefined.
Definition post (endpoint : string) (body : JsValue) (params : Params) :=
  request "POST" endpoint params body.
Definition put (endpoint : string) (body : JsValue) (params : Params) :=
  request "PUT" endpoint params body.
Definition patch (endpoint : string) (body : JsValue) (params : Params) :=
  request "PATCH" endpoint params body.

(** [getInvestigation(investigationId)] *)
Definition getInvestigation (investigationId : string) :=
  get ("/idr/v2/investigations/" +:+ investigationId) None.

(** [getInvestigationTimeline(investigationId)], [params] defaulting to
    the empty mapping. *)
Definition getInvestigationTimeline (investigationId : string) :=
  get ("/idr/v2/investigations/" +:+ investigationId +:+ "/timeline") (Some []).

End Client.

(** ** The investigation handler ([tools/investigations.ts]) *)

Record TextContent : Type := mkText {
  type : string;
  text : string;
}.

(** What a tool handler returns; [isError] is [None] when the key is
    absent. *)
Record ToolResult : Type := mkToolResult {
  content : list TextContent;
  isError : option bool;
}.

(** A property read that throws on [null] and [undefined]. *)
Definition read (v : JsValue) (key : string) : Result JsValue :=
  match get_prop v key with
  | Some x => Return x
  | None =>
      Throw (new_TypeError
               ("Cannot read properties of "
                +:+ (match v with JNull => "null" | _ => "undefined" end)
                +:+ " (reading '" +:+ key +:+ "')"))
  end.

Definition investigation_fields : list string :=
  [ "id"; "rrn"; "title"; "status"; "priority"; "disposition"; "assignee";
    "created_time"; "last_accessed"; "source"; "organization_id";
    "threat_type"; "responsibility"; "tags"; "alerts_most_recent_evidence";
    "alerts_most_recent_created_time" ].

(** [JSON.stringify(object, null, gap)] for an object literal, which always
    has a text. *)
Definition stringify_object (gap : string) (props : list (string * JsValue))
    : string :=
  default EmptyString (Json.serialize gap EmptyString (JObj props)).

(** The body of the [try] once both reads have settled. *)
Definition investigation_payload (invResponse timelineResponse : JsValue)
    : Result ToolResult :=
  inv ← read invResponse "data";
  fields ← mapM (λ key, value ← read inv key; mret (key, value))
                investigation_fields;
  timeline ← read timelineResponse "data";
  let result := fields ++ [("timeline", timeline)] in
  mret (mkToolResult [mkText "text" (stringify_object "  " result)] None).

(** The [catch] of the handler:
    [error instanceof Error ? error.message : String(error)], where every
    value of [JsError] is an instance of [Error]. *)
Definition error_payload (error : JsError) : ToolResult :=
  mkToolResult
    [mkText "text" (stringify_object EmptyString [("error", JStr (err_message error))])]
    (Some true).

(** What the timeline read falls back to: [{ data: [] }]. *)
Definition empty_timeline : JsValue := JObj [("data", JArr [])].

Section Handler.

Variable rt : Runtime.
Variable client : Rapid7Config.

(** The handler of [get_investigation]. The two reads share nothing but
    the host, so they are run one after the other; the timeline read has
    its [catch], so [Promise.all] can only reject with the failure of the
    first. *)
Definition get_investigation (investigation_id : string) (w : World)
    : World * Result ToolResult :=
  let '(w, primary) := getInvestigation rt client investigation_id w in
  let '(w, secondary) := getInvestigationTimeline rt client investigation_id w in
  let timelineResponse :=
    match secondary with
    | Return v => v
    | Throw _ => empty_timeline
    end in
  (w, try_catch (invResponse ← primary;
                 investigation_payload invResponse timelineResponse)
                (λ error, Return (error_payload error))).

End Handler.

(** ** A host for the examples *)

Module Sample.

(** A URL parser for texts that carry neither query nor fragment and are
    in normal form already: the text is the head. *)
Definition new_URL (s : string) : option URL := Some (mkURL s None [] None).

Definition config : Rapid7Config :=
  mkConfig "https://us.api.example.com" "key" "us" (Int 30000).

Definition world : World := mkWorld 0 ∅ [].

Definition host (fetch : FetchCall → FetchOutcome) : Runtime :=
  mkRuntime new_URL fetch.

Definition respond (status : Z) (statusText : string)
    (headers : list (string * string)) (body : Result JsValue) : Response :=
  mkResponse status statusText headers body.

(** What [response.json()] gives for a body that is no JSON. *)
Definition not_json : Result JsValue :=
  Throw (mkError SyntaxError "SyntaxError" "Unexpected end of JSON input"
                 None None).

End Sample.

Module SampleInvestigation.

Definition found : Response :=
  Sample.respond 200 "OK" []
    (Return (JObj [("data", JObj [("id", JStr "abc"); ("title", JStr "t")])])).

(** The investigation is served, the timeline is not. *)
Definition fetch (call : FetchCall) : FetchOutcome :=
  if String.eqb (fc_url call)
       "https://us.api.example.com/idr/v2/investigations/abc"
  then Responds found
  else Responds (Sample.respond 500 "Internal Server Error" [] Sample.not_json).

End SampleInvestigation.

Module SampleRetry.

(** A 429 response whose [Retry-After] is a date. *)
Definition dated : Response :=
  Sample.respond 429 "Too Many Requests"
    [("Retry-After", "Wed, 21 Oct 2015 07:28:00 GMT")]
    (Return (JObj [("message", JStr "slow down")])).

End SampleRetry.

Module SampleEnv.

(** An environment with a key, the default region and a timeout. *)
Definition with_timeout (value : string) : gmap string string :=
  <["RAPID7_TIMEOUT" := value]> {["RAPID7_API_KEY" := "key"]}.

Definition config (timeout : JsNumber) : Rapid7Config :=
  mkConfig "https://us.api.insight.rapid7.com" "key" "us" timeout.

End SampleEnv.

(** ** The properties, as definitions *)

(** The pairs a mapping contributes to a query: the entries whose value is
    neither [undefined] nor [null], in the order of the mapping, each value
    coerced to a string. *)
Definition present_pairs (entries : list (string * ParamValue))
    : list (string * string) :=
  (λ kv, (kv.1, param_to_string kv.2)) <$> filter (λ kv, present kv.2) entries.

(** The mapping [{a: "x", b: undefined, c: 3, d: false}]. *)
Definition example_params : list (string * ParamValue) :=
  [ ("a", PString "x"); ("b", PUndefined); ("c", PNumber (Int 3));
    ("d", PBoolean false) ].

(** The object the handler prints for an investigation [inv] and a
    timeline: the fields of the investigation, then the timeline. *)
Definition investigation_result (inv timeline : JsValue)
    : list (string * JsValue) :=
  ((λ key, (key, default JUndefined (get_prop inv key))) <$> investigation_fields)
  ++ [("timeline", timeline)].

Definition success_payload (result : list (string * JsValue)) : ToolResult :=
  mkToolResult [mkText "text" (stringify_object "  " result)] None.

(** The three kinds of classified failure. *)
Definition classified (e : JsError) : Prop :=
  err_class e = AuthError ∨ err_class e = RateLimitError
  ∨ err_class e = ClientError.

(** ** More of the client: the investigation accessors *)

Section Accessors.

Variable rt : Runtime.
Variable config : Rapid7Config.

(** [getInvestigations(params)] *)
Definition getInvestigations (params : list (string * ParamValue)) :=
  get rt config "/idr/v2/investigations" (Some params).

(** [createInvestigation(body)] *)
Definition createInvestigation (body : list (string * JsValue)) :=
  post rt config "/idr/v2/investigations" (JObj body) None.

(** [updateInvestigation(investigationId, body)] *)
Definition updateInvestigation (investigationId : string)
    (body : list (string * JsValue)) :=
  patch rt config ("/idr/v2/investigations/" +:+ investigationId) (JObj body) None.

(** [addInvestigationComment(investigationId, body)] *)
Definition addInvestigationComment (investigationId : string)
    (body : list (string * JsValue)) :=
  post rt config ("/idr/v2/investigations/" +:+ investigationId +:+ "/comments")
       (JObj body) None.

(** [getInvestigationAlerts(investigationId, params)] *)
Definition getInvestigationAlerts (investigationId : string)
    (params : list (string * ParamValue)) :=
  get rt config ("/idr/v2/investigations/" +:+ investigationId +:+ "/alerts")
      (Some params).

End Accessors.

(** ** More of the handlers ([tools/investigations.ts]) *)

(** The reads [v.name] of an object literal [{ name: v.name, ... }]. *)
Definition read_fields (v : JsValue) (names : list string)
    : Result (list (string * JsValue)) :=
  mapM (λ key, value ← read v key; mret (key, value)) names.

(** An error payload with a given message. *)
Definition message_payload (message : string) : ToolResult :=
  mkToolResult
    [mkText "text" (stringify_object EmptyString [("error", JStr message)])]
    (Some true).

(** [if (value) body.name = value] for an optional string argument. *)
Definition optional_field (name : string) (value : option string)
    : list (string * JsValue) :=
  if falsy_string value then []
  else [(name, JStr (default EmptyString value))].

(** [if (assignee_email) body.assignee = { email: assignee_email }] *)
Definition assignee_field (assignee_email : option string)
    : list (string * JsValue) :=
  if falsy_string assignee_email then []
  else [("assignee", JObj [("email", JStr (default EmptyString assignee_email))])].

(** [if (value) params.name = value] *)
Definition optional_param (name : string) (value : option string)
    : list (string * ParamValue) :=
  if falsy_string value then []
  else [(name, PString (default EmptyString value))].

(** [v?.key] *)
Definition optional_chain (v : JsValue) (key : string) : JsValue :=
  match v with
  | JUndefined | JNull => JUndefined
  | _ => default JUndefined (get_prop v key)
  end.

(** [v.map(f)]: an array is mapped; on [null] and [undefined] the read of
    [map] throws; any other decoded value has no [map] to call. *)
Definition map_items (v : JsValue) (f : JsValue → Result JsValue)
    : Result JsValue :=
  match v with
  | JArr items => mapped ← mapM f items; mret (JArr mapped)
  | JNull => Throw (new_TypeError "Cannot read properties of null (reading 'map')")
  | JUndefined =>
      Throw (new_TypeError "Cannot read properties of undefined (reading 'map')")
  | _ => Throw (new_TypeError "response.data.map is not a function")
  end.

(** The body [create_investigation] builds from its arguments. *)
Definition create_body (title priority status : string)
    (disposition assignee_email : option string) : list (string * JsValue) :=
  [("title", JStr title); ("priority", JStr priority); ("status", JStr status)]
  ++ optional_field "disposition" disposition
  ++ assignee_field assignee_email.

Definition created_fields : list string :=
  [ "id"; "rrn"; "title"; "status"; "priority"; "disposition"; "assignee";
    "created_time" ].

(** The body [update_investigation] builds from its arguments. *)
Definition update_body (status priority disposition assignee_email title : option string)
    : list (string * JsValue) :=
  optional_field "status" status
  ++ optional_field "priority" priority
  ++ optional_field "disposition" disposition
  ++ assignee_field assignee_email
  ++ optional_field "title" title.

Definition updated_fields : list string :=
  [ "id"; "rrn"; "title"; "status"; "priority"; "disposition"; "assignee";
    "last_accessed" ].

Definition comment_fields : list string :=
  [ "id"; "body"; "created_time"; "creator"; "visibility" ].

(** What a handler makes of [response.data]: the named fields and a closing
    message. *)
Definition entity_payload (response : JsValue) (fields : list string)
    (message : string) : Result ToolResult :=
  entity ← read response "data";
  values ← read_fields entity fields;
  mret (success_payload (values ++ [("message", JStr message)])).

(** The query parameters [search_investigations] builds; [size] and
    [index] are the numbers the schema let through. *)
Definition search_params (status priority assignee_email start_time end_time sort : option string)
    (size index : JsNumber) : list (string * ParamValue) :=
  [("size", PNumber size); ("index", PNumber index)]
  ++ optional_param "statuses" status
  ++ optional_param "priorities" priority
  ++ optional_param "assignee_email" assignee_email
  ++ optional_param "start_time" start_time
  ++ optional_param "end_time" end_time
  ++ optional_param "sort" sort.

(** One element of the [investigations] list of a search. *)
Definition investigation_summary (inv : JsValue) : Result JsValue :=
  leading ← read_fields inv
              ["id"; "rrn"; "title"; "status"; "priority"; "disposition"];
  assignee ← read inv "assignee";
  trailing ← read_fields inv
               ["created_time"; "last_accessed"; "source"; "threat_type"; "tags"];
  mret (JObj (leading
              ++ [("assignee", optional_chain assignee "name");
                  ("assignee_email", optional_chain assignee "email")]
              ++ trailing)).

(** The body of the [try] of [search_investigations] once the read has
    settled. *)
Definition search_payload (response : JsValue) (size index : JsNumber)
    : Result ToolResult :=
  data ← read response "data";
  investigations ← map_items data investigation_summary;
  metadata ← read response "metadata";
  total ← read metadata "total_data";
  mret (success_payload
          [("investigations", investigations); ("total", total);
           ("size", JNum size); ("index", JNum index)]).

Definition alert_fields : list string :=
  [ "id"; "rrn"; "title"; "severity"; "type"; "status"; "created_time";
    "rule"; "first_event_time"; "latest_event_time" ].

(** One element of the [alerts] list. *)
Definition alert_summary (alert : JsValue) : Result JsValue :=
  values ← read_fields alert alert_fields;
  mret (JObj values).

(** The body of the [try] of [get_investigation_alerts] once the read has
    settled. *)
Definition alerts_payload (investigation_id : string) (response : JsValue)
    (size index : JsNumber) : Result ToolResult :=
  data ← read response "data";
  alerts ← map_items data alert_summary;
  metadata ← read response "metadata";
  total ← read metadata "total_data";
  mret (success_payload
          [("investigation_id", JStr investigation_id); ("alerts", alerts);
           ("total", total);
           ("size", JNum size); ("index", JNum index)]).

Section MoreHandlers.

Variable rt : Runtime.
Variable client : Rapid7Config.

(** The [try]/[catch] every handler wraps its work in. *)
Definition guarded (work : Result ToolResult) : Result ToolResult :=
  try_catch work (λ error, Return (error_payload error)).

(** The handler of [search_investigations]. *)
Definition search_investigations
    (status priority assignee_email start_time end_time sort : option string)
    (size index : JsNumber) (w : World) : World * Result ToolResult :=
  let params :=
    search_params status priority assignee_email start_time end_time sort
                  size index in
  let '(w, settled) := getInvestigations rt client params w in
  (w, guarded (response ← settled; search_payload response size index)).

(** The handler of [create_investigation]. *)
Definition create_investigation (title priority status : string)
    (disposition assignee_email : option string) (w : World)
    : World * Result ToolResult :=
  let body := create_body title priority status disposition assignee_email in
  let '(w, settled) := createInvestigation rt client body w in
  (w, guarded (response ← settled;
               entity_payload response created_fields
                              "Investigation created successfully")).

(** The handler of [update_investigation]: with nothing to update it
    answers at once. *)
Definition update_investigation (investigation_id : string)
    (status priority disposition assignee_email title : option string)
    (w : World) : World * Result ToolResult :=
  let body := update_body status priority disposition assignee_email title in
  if (length body =? 0)%nat
  then (w, Return (message_payload "At least one field must be provided to update"))
  else
    let '(w, settled) := updateInvestigation rt client investigation_id body w in
    (w, guarded (response ← settled;
                 entity_payload response updated_fields
                                "Investigation updated successfully")).

(** The handler of [add_investigation_comment]. *)
Definition add_investigation_comment (investigation_id commentBody visibility : string)
    (w : World) : World * Result ToolResult :=
  let '(w, settled) :=
    addInvestigationComment rt client investigation_id
      [("body", JStr commentBody); ("visibility", JStr visibility)] w in
  (w, guarded (response ← settled;
               entity_payload response comment_fields
                              "Comment added successfully")).

(** The handler of [get_investigation_alerts]. *)
Definition get_investigation_alerts (investigation_id : string)
    (size index : JsNumber) (w : World) : World * Result ToolResult :=
  let '(w, settled) :=
    getInvestigationAlerts rt client investigation_id
      [("size", PNumber size); ("index", PNumber index)] w in
  (w, guarded (response ← settled;
               alerts_payload investigation_id response size index)).

End MoreHandlers.

(** ** Names for what the configuration reads *)

(** [(process.env.RAPID7_REGION || "us").toLowerCase()] *)
Definition effective_region (env : gmap string string) : string :=
  Str.toLowerCase
    (if falsy_string (env !! "RAPID7_REGION") then "us"
     else default EmptyString (env !! "RAPID7_REGION")).

(** A run of [n] slashes. *)
Fixpoint slashes (n : nat) : string :=
  match n with
  | O => EmptyString
  | S m => String "/" (slashes m)
  end.

(** ** The query of a search, as pairs *)



(** The integers a double holds exactly and the language prints in
    decimal: up to 2^53 in magnitude. On them [parseInt] and the product of
    two numbers are the ones of the integers. *)
Definition safe_integer (z : Z) : Prop :=
  -9007199254740992 ≤ z ≤ 9007199254740992.


Module SampleSearch.

Definition found : list JsValue :=
  [ JObj [("id", JStr "abc");
          ("assignee", JObj [("name", JStr "Ann"); ("email", JStr "ann@example.com")])];
    JObj [("id", JStr "def")] ].

Definition metadata : JsValue :=
  JObj [("index", JNum (Int 0)); ("size", JNum (Int 20));
        ("total_data", JNum (Int 57)); ("total_pages", JNum (Int 3))].

Definition answer : JsValue :=
  JObj [("data", JArr found); ("metadata", metadata)].

Definition fetch (call : FetchCall) : FetchOutcome :=
  Responds (Sample.respond 200 "OK" [] (Return answer)).

End SampleSearch.

(** ** Facts about strings *)

Lemma app_cons (c : ascii) (a b : string) : String c a +:+ b = String c (a +:+ b).
Proof. reflexivity. Qed.

Lemma app_empty_l (a : string) : EmptyString +:+ a = a.
Proof. reflexivity. Qed.

Lemma app_empty_r (a : string) : a +:+ EmptyString = a.
Proof. induction a as [|c a IH]; [done|]. by rewrite app_cons, IH. Qed.

Lemma app_assoc_s (a b c : string) : (a +:+ b) +:+ c = a +:+ b +:+ c.
Proof. induction a as [|x a IH]; [done|]. by rewrite !app_cons, IH. Qed.


Lemma contains_here (sub post : string) : Str.contains sub (sub +:+ post).
Proof. by exists EmptyString, post. Qed.

Lemma contains_after (pre sub s : string) :
  Str.contains sub s → Str.contains sub (pre +:+ s).
Proof.
  intros (a & b & ->). exists (pre +:+ a), b. by rewrite app_assoc_s.
Qed.

Lemma strip_no_slash s : Str.ends_with "/" (Str.strip_trailing_slashes s) = false.
Proof.
  induction s as [|c rest IH]; first done.
  simpl. destruct (Str.strip_trailing_slashes rest) as [|k kept] eqn:E.
  - by destruct (Str.eqb_char c "/") eqn:Ec.
  - done.
Qed.



(** ** Facts about the URL of a request *)

Lemma set_pair_fresh (name value : string) (pairs : list (string * string)) :
  name ∉ pairs.*1 → Url.set_pair name value pairs = pairs ++ [(name, value)].
Proof.
  induction pairs as [|[k v] rest IH]; intros Hfresh; [done|].
  simpl in *. apply not_elem_of_cons in Hfresh as [Hne Hrest].
  destruct (String.eqb_spec k name) as [->|_]; [done|].
  by rewrite IH.
Qed.

Lemma present_pairs_cons_present k v entries :
  present v = true →
  present_pairs ((k, v) :: entries) = (k, param_to_string v) :: present_pairs entries.
Proof.
  intros Hp. unfold present_pairs. rewrite filter_cons_True; [done|].
  simpl. by rewrite Hp.
Qed.

Lemma present_pairs_cons_absent k v entries :
  present v = false → present_pairs ((k, v) :: entries) = present_pairs entries.
Proof.
  intros Hp. unfold present_pairs. rewrite filter_cons_False; [done|].
  simpl. rewrite Hp. by intros [].
Qed.

Lemma present_pairs_keys entries k :
  k ∈ (present_pairs entries).*1 → k ∈ entries.*1.
Proof.
  induction entries as [|[k' v] rest IH]; [done|].
  destruct (present v) eqn:Hp.
  - rewrite present_pairs_cons_present by done. simpl.
    rewrite !elem_of_cons. tauto.
  - rewrite present_pairs_cons_absent by done. simpl.
    rewrite elem_of_cons. tauto.
Qed.

Lemma set_params_cons k v rest u :
  set_params ((k, v) :: rest) u =
  set_params rest (if present v
                   then Url.searchParams_set k (param_to_string v) u else u).
Proof. reflexivity. Qed.

(** With keys that are new to the list, the loop appends the present pairs
    and leaves head and fragment alone. *)
Lemma set_params_spec entries : ∀ u,
  NoDup entries.*1 →
  (∀ k, k ∈ entries.*1 → k ∉ (url_params u).*1) →
  url_head (set_params entries u) = url_head u
  ∧ url_fragment (set_params entries u) = url_fragment u
  ∧ url_params (set_params entries u) = url_params u ++ present_pairs entries
  ∧ url_query (set_params entries u) =
      match present_pairs entries with
      | [] => url_query u
      | _ => Some (Url.serialize (url_params u ++ present_pairs entries))
      end.
Proof.
  induction entries as [|[k v] rest IH]; intros u Hnd Hfresh.
  - simpl. by rewrite app_nil_r.
  - simpl in Hnd. apply NoDup_cons in Hnd as [Hk Hnd].
    rewrite set_params_cons.
    destruct (present v) eqn:Hp.
    + rewrite present_pairs_cons_present by done.
      set (u1 := Url.searchParams_set k (param_to_string v) u).
      assert (url_params u1 = url_params u ++ [(k, param_to_string v)]) as Hu1.
      { unfold u1, Url.searchParams_set. simpl. apply set_pair_fresh.
        apply Hfresh. simpl. left. }
      destruct (IH u1 Hnd) as (Hh & Hf & Hps & Hq).
      { intros k' Hin. rewrite Hu1, fmap_app, elem_of_app. simpl.
        rewrite list_elem_of_singleton. intros [?| ->]; [|done].
        eapply Hfresh; [|done]. simpl. by right. }
      rewrite Hu1, <-app_assoc in Hps, Hq. simpl in Hps, Hq.
      rewrite Hh, Hf, Hps, Hq. repeat split.
      destruct (present_pairs rest) eqn:E; [|done].
      unfold u1. simpl. rewrite set_pair_fresh; [done|].
      apply Hfresh. simpl. left.
    + rewrite present_pairs_cons_absent by done.
      apply IH; [done|]. intros k' Hin. apply Hfresh. simpl. by right.
Qed.

(** ** Facts about [request] *)

Section RequestFacts.

Variable rt : Runtime.
Variable cfg : Rapid7Config.
Variables (method endpoint : string) (params : Params) (body : JsValue).
Variable url : URL.
Hypothesis Hurl : request_url rt cfg endpoint params = Some url.

Lemma request_responds w response :
  fetch rt (fetch_call cfg method url body) = Responds response →
  request rt cfg method endpoint params body w =
    (clearTimeout (next_timer w) (record_call (fetch_call cfg method url body) (setTimeout w).2),
     if negb (ok response) then Throw (handleErrorResponse response)
     else if status response =? 204 then Return (JObj [])
     else json response).
Proof.
  intros Hf. unfold request, await_fetch. rewrite Hurl. simpl.
  rewrite Hf.
  destruct (negb (ok response)); [done|].
  by destruct (status response =? 204).
Qed.

Lemma request_rejects w e :
  fetch rt (fetch_call cfg method url body) = Rejects e →
  request rt cfg method endpoint params body w =
    (clearTimeout (next_timer w) (record_call (fetch_call cfg method url body) (setTimeout w).2),
     if is_abort e then Throw (timeout_error cfg) else Throw e).
Proof.
  intros Hf. unfold request, await_fetch. rewrite Hurl. simpl.
  rewrite Hf. by destruct (is_abort e).
Qed.

Lemma request_timer_fires w :
  fetch rt (fetch_call cfg method url body) = TimerFires →
  request rt cfg method endpoint params body w =
    (clearTimeout (next_timer w)
       (fire (next_timer w) (record_call (fetch_call cfg method url body) (setTimeout w).2)),
     Throw (timeout_error cfg)).
Proof.
  intros Hf. unfold request, await_fetch. rewrite Hurl. simpl.
  by rewrite Hf.
Qed.

(** One call is handed to [fetch], whatever comes of it. *)
Lemma request_sends w :
  sent (request rt cfg method endpoint params body w).1 = sent w ++ [fetch_call cfg method url body].
Proof.
  destruct (fetch rt (fetch_call cfg method url body)) as [r|e|] eqn:Hf.
  - by rewrite (request_responds _ _ Hf).
  - by rewrite (request_rejects _ _ Hf).
  - by rewrite (request_timer_fires _ Hf).
Qed.

End RequestFacts.

Lemma pending_restored (w : World) :
  World_ok w → (pending w ∪ {[ next_timer w ]}) ∖ {[ next_timer w ]} = pending w.
Proof.
  intros Hok. assert (next_timer w ∉ pending w) by (intros ?%Hok; lia).
  set_solver.
Qed.

Lemma handleErrorResponse_message_has_status (response : Response) :
  Str.contains (pretty (status response)) (error_message response).
Proof.
  unfold error_message. simpl.
  destruct (json response) as [errorBody|]; [|apply contains_here].
  destruct (get_prop errorBody "message") as [message|]; [|apply contains_here].
  destruct (truthy message); [|apply contains_here].
  destruct (to_string message); [|apply contains_here].
  rewrite !app_assoc_s. apply contains_here.
Qed.

(** ** Error classification *)

(** C1. A response whose status is not a success makes [request] throw, and
    what it throws is one of the three classified failures, the kind fixed
    by the status: for 401 and 403 an authentication failure whose
    [statusCode] is the status, for 429 a rate-limit failure, for any other
    status a plain client failure whose [statusCode] is the status and whose
    message contains the status in decimal. *)
Theorem error_classification
    (rt : Runtime) (cfg : Rapid7Config) (method endpoint : string)
    (params : Params) (body : JsValue) (w : World)
    (url : URL) (response : Response) :
  request_url rt cfg endpoint params = Some url →
  fetch rt (fetch_call cfg method url body) = Responds response →
  ok response = false →
  ∃ e, (request rt cfg method endpoint params body w).2 = Throw e
    ∧ classified e
    ∧ (status response = 401 ∨ status response = 403 →
       err_class e = AuthError ∧ statusCode e = Some (status response))
    ∧ (status response = 429 → err_class e = RateLimitError)
    ∧ (status response ≠ 401 → status response ≠ 403 → status response ≠ 429 →
       err_class e = ClientError
       ∧ statusCode e = Some (status response)
       ∧ Str.contains (pretty (status response)) (err_message e)).
Proof.
  intros Hurl Hfetch Hok.
  rewrite (request_responds _ _ _ _ _ _ _ Hurl _ _ Hfetch), Hok. simpl.
  exists (handleErrorResponse response). split; [done|].
  pose proof (handleErrorResponse_message_has_status response) as Hmsg.
  unfold handleErrorResponse, classified.
  destruct (Z.eqb_spec (status response) 401) as [E401|N401]; simpl.
  { split; [by left|]. split; [done|]. split; intros; lia. }
  destruct (Z.eqb_spec (status response) 403) as [E403|N403]; simpl.
  { split; [by left|]. split; [done|]. split; intros; lia. }
  destruct (Z.eqb_spec (status response) 429) as [E429|N429]; simpl.
  { split; [by right; left|]. split; [intros [?|?]; lia|].
    split; [done|]. intros; lia. }
  split; [by right; right|]. split; [intros [?|?]; lia|].
  split; [intros; lia|]. intros _ _ _. repeat split.
  by apply contains_after.
Qed.

Lemma error_classification_witness :
  ∃ e, (request
          (Sample.host (λ _, Responds (Sample.respond 500 "Internal Server Error" []
                                         (Return (JObj [("message", JStr "boom")])))))
          Sample.config "GET" "/idr/v2/alerts" None JUndefined Sample.world).2
       = Throw e
    ∧ err_class e = ClientError ∧ statusCode e = Some 500
    ∧ err_message e = "Request failed: 500 Internal Server Error: boom".
Proof.
  destruct (error_classification
              (Sample.host (λ _, Responds (Sample.respond 500 "Internal Server Error" []
                                             (Return (JObj [("message", JStr "boom")])))))
              Sample.config "GET" "/idr/v2/alerts" None JUndefined Sample.world
              (mkURL "https://us.api.example.com/idr/v2/alerts" None [] None)
              (Sample.respond 500 "Internal Server Error" []
                 (Return (JObj [("message", JStr "boom")])))
              eq_refl eq_refl eq_refl)
    as (e & Hthrow & _ & _ & _ & Hgen).
  exists e. split; [exact Hthrow|].
  destruct Hgen as (Hc & Hs & _); [simpl; lia..|].
  repeat split; [exact Hc|exact Hs|].
  vm_compute in Hthrow. by injection Hthrow as <-.
Defined.

(** ** Timeout and transport failures *)

(** C3. When the timer of the call fires, or [fetch] is rejected with an
    [AbortError], [request] throws a plain client failure that carries no
    status code and whose message contains the configured timeout, printed
    as a number, followed by [ms]; any other rejection of [fetch] is thrown
    on as it is. *)
Theorem timeout_and_transport_failures
    (rt : Runtime) (cfg : Rapid7Config) (method endpoint : string)
    (params : Params) (body : JsValue) (w : World) (url : URL) :
  request_url rt cfg endpoint params = Some url →
  (fetch rt (fetch_call cfg method url body) = TimerFires
   ∨ (∃ e, fetch rt (fetch_call cfg method url body) = Rejects e
           ∧ is_abort e = true) →
   ∃ e, (request rt cfg method endpoint params body w).2 = Throw e
     ∧ err_class e = ClientError
     ∧ statusCode e = None
     ∧ Str.contains (number_to_string (timeout cfg) +:+ "ms") (err_message e))
  ∧ (∀ e, fetch rt (fetch_call cfg method url body) = Rejects e →
          is_abort e = false →
          (request rt cfg method endpoint params body w).2 = Throw e).
Proof.
  intros Hurl. split.
  - intros Habort. exists (timeout_error cfg).
    split; [|repeat split; apply contains_after;
               exists EmptyString, EmptyString; by rewrite app_empty_r].
    destruct Habort as [Hf|(e & Hf & He)].
    + by rewrite (request_timer_fires _ _ _ _ _ _ _ Hurl _ Hf).
    + by rewrite (request_rejects _ _ _ _ _ _ _ Hurl _ _ Hf), He.
  - intros e Hf He.
    by rewrite (request_rejects _ _ _ _ _ _ _ Hurl _ _ Hf), He.
Qed.

Lemma timeout_and_transport_failures_witness :
  (∃ e, (request (Sample.host (λ _, TimerFires)) Sample.config
                 "GET" "/idr/v2/alerts" None JUndefined Sample.world).2 = Throw e
        ∧ err_class e = ClientError ∧ statusCode e = None
        ∧ Str.contains "30000ms" (err_message e))
  ∧ (request (Sample.host (λ _, Rejects (new_TypeError "fetch failed")))
             Sample.config "GET" "/idr/v2/alerts" None JUndefined Sample.world).2
    = Throw (new_TypeError "fetch failed").
Proof.
  split.
  - apply (timeout_and_transport_failures
             (Sample.host (λ _, TimerFires)) Sample.config
             "GET" "/idr/v2/alerts" None JUndefined Sample.world
             (mkURL "https://us.api.example.com/idr/v2/alerts" None [] None)
             eq_refl).
    left. reflexivity.
  - apply (timeout_and_transport_failures
             (Sample.host (λ _, Rejects (new_TypeError "fetch failed")))
             Sample.config "GET" "/idr/v2/alerts" None JUndefined Sample.world
             (mkURL "https://us.api.example.com/idr/v2/alerts" None [] None)
             eq_refl); reflexivity.
Defined.

(** ** Success without content *)

(** C5. A response of status 204 makes [request] return the empty object,
    whatever [response.json()] would have given: every property read of the
    result is [undefined]. *)
Theorem no_content_is_empty_object
    (rt : Runtime) (cfg : Rapid7Config) (method endpoint : string)
    (params : Params) (body : JsValue) (w : World)
    (url : URL) (response : Response) :
  request_url rt cfg endpoint params = Some url →
  fetch rt (fetch_call cfg method url body) = Responds response →
  status response = 204 →
  (request rt cfg method endpoint params body w).2 = Return (JObj [])
  ∧ ∀ key, get_prop (JObj []) key = Some JUndefined.
Proof.
  intros Hurl Hfetch H204.
  rewrite (request_responds _ _ _ _ _ _ _ Hurl _ _ Hfetch).
  unfold ok. rewrite H204. by simpl.
Qed.

Lemma no_content_is_empty_object_witness :
  (request
     (Sample.host (λ _, Responds (Sample.respond 204 "No Content" []
                                    (Return (JObj [("data", JStr "ignored")])))))
     Sample.config "PATCH" "/idr/v2/alerts/1" None (JObj [("status", JStr "CLOSED")])
     Sample.world).2
  = Return (JObj []).
Proof.
  apply (no_content_is_empty_object
           (Sample.host (λ _, Responds (Sample.respond 204 "No Content" []
                                          (Return (JObj [("data", JStr "ignored")])))))
           Sample.config "PATCH" "/idr/v2/alerts/1" None
           (JObj [("status", JStr "CLOSED")]) Sample.world
           (mkURL "https://us.api.example.com/idr/v2/alerts/1" None [] None)
           (Sample.respond 204 "No Content" [] (Return (JObj [("data", JStr "ignored")])))
           eq_refl eq_refl eq_refl).
Defined.

(** ** The timer *)

(** C6. Whatever [request] does (the URL is refused before any timer is set,
    the response is a success or an error, [fetch] is rejected, the timer
    fires), the timers set and not yet cleared are afterwards the ones that
    were there before: the timer of the call is not left behind. *)
Theorem timer_always_cleared
    (rt : Runtime) (cfg : Rapid7Config) (method endpoint : string)
    (params : Params) (body : JsValue) (w : World) :
  World_ok w →
  pending (request rt cfg method endpoint params body w).1 = pending w
  ∧ (next_timer w ∉ pending (request rt cfg method endpoint params body w).1)
  ∧ World_ok (request rt cfg method endpoint params body w).1.
Proof.
  intros Hok.
  assert (next_timer w ∉ pending w) as Hfresh by (intros ?%Hok; lia).
  assert (∀ w', pending w' = pending w → (next_timer w ≤ next_timer w')%nat →
                pending w' = pending w ∧ (next_timer w ∉ pending w') ∧ World_ok w')
    as Hdone.
  { intros w' Hp Hn. rewrite Hp. repeat split; [done|].
    intros id Hid. rewrite Hp in Hid. apply Hok in Hid. lia. }
  destruct (request_url rt cfg endpoint params) as [url|] eqn:Hurl.
  - destruct (fetch rt (fetch_call cfg method url body)) as [r|e|] eqn:Hf.
    + rewrite (request_responds _ _ _ _ _ _ _ Hurl _ _ Hf).
      apply Hdone; simpl; [by apply pending_restored|lia].
    + rewrite (request_rejects _ _ _ _ _ _ _ Hurl _ _ Hf).
      apply Hdone; simpl; [by apply pending_restored|lia].
    + rewrite (request_timer_fires _ _ _ _ _ _ _ Hurl _ Hf).
      apply Hdone; simpl; [|lia].
      rewrite pending_restored by done. set_solver.
  - unfold request. rewrite Hurl. simpl. by apply Hdone.
Qed.

Lemma timer_always_cleared_witness :
  pending (request (Sample.host (λ _, Rejects (new_TypeError "fetch failed")))
                   Sample.config "GET" "/idr/v2/alerts" None JUndefined
                   Sample.world).1
  = pending Sample.world.
Proof.
  apply (timer_always_cleared
           (Sample.host (λ _, Rejects (new_TypeError "fetch failed")))
           Sample.config "GET" "/idr/v2/alerts" None JUndefined Sample.world).
  intros id Hid. simpl in Hid. by apply elem_of_empty in Hid.
Defined.

(** ** The body of a request *)

(** C10. The call handed to [fetch] carries a body exactly when the [body]
    argument is truthy, and then the body is its JSON text; for [false], 0,
    the empty string, [null] (and [undefined], and [NaN]) the call carries
    no body. *)
Theorem body_sent_iff_truthy
    (rt : Runtime) (cfg : Rapid7Config) (method endpoint : string)
    (params : Params) (body : JsValue) (w : World) (url : URL) :
  request_url rt cfg endpoint params = Some url →
  ∃ call,
    sent (request rt cfg method endpoint params body w).1 = sent w ++ [call]
    ∧ (is_Some (fc_body call) ↔ truthy body = true)
    ∧ (truthy body = true → fc_body call = Json.stringify body)
    ∧ (body ∈ [JBool false; JNum (Int 0); JStr EmptyString; JNull;
               JUndefined; JNum NaN] →
       fc_body call = None).
Proof.
  intros Hurl. exists (fetch_call cfg method url body).
  split; [by apply request_sends|].
  unfold fetch_call, request_body. simpl.
  destruct (truthy body) eqn:Ht.
  - split; [|split; [done|]].
    + split; [done|]. intros _.
      destruct body as [| |[]| | | |]; try done;
        unfold Json.stringify; simpl; by eexists.
    + rewrite !elem_of_cons, elem_of_nil.
      intros [->|[->|[->|[->|[->|[->|[]]]]]]]; discriminate Ht.
  - split; [|done]. split; [by intros [? ?]|done].
Qed.

Lemma body_sent_iff_truthy_witness :
  ∃ call,
    sent (request (Sample.host (λ _, Rejects (new_TypeError "fetch failed")))
                  Sample.config "POST" "/idr/v2/investigations" None
                  (JNum (Int 0)) Sample.world).1 = [call]
    ∧ fc_body call = None.
Proof.
  destruct (body_sent_iff_truthy
              (Sample.host (λ _, Rejects (new_TypeError "fetch failed")))
              Sample.config "POST" "/idr/v2/investigations" None
              (JNum (Int 0)) Sample.world
              (mkURL "https://us.api.example.com/idr/v2/investigations" None [] None)
              eq_refl)
    as (call & Hsent & _ & _ & Hfalsy).
  exists call. split; [exact Hsent|].
  apply Hfalsy. rewrite !elem_of_cons. right; left. reflexivity.
Defined.

(** ** Query parameters *)

Lemma absent_key_not_present entries k v :
  NoDup entries.*1 → (k, v) ∈ entries → present v = false →
  k ∉ (present_pairs entries).*1.
Proof.
  induction entries as [|[k' v'] rest IH]; intros Hnd Hin Hp.
  - by apply elem_of_nil in Hin.
  - simpl in Hnd. apply NoDup_cons in Hnd as [Hk' Hnd].
    apply elem_of_cons in Hin as [[= <- <-]|Hin].
    + rewrite present_pairs_cons_absent by done.
      intros ?%present_pairs_keys. done.
    + assert (k ≠ k') as Hne.
      { intros ->. apply Hk'. by apply (list_elem_of_fmap_2 fst) in Hin. }
      destruct (present v') eqn:Hp'.
      * rewrite present_pairs_cons_present by done. simpl.
        rewrite not_elem_of_cons. split; [done|]. by apply IH.
      * rewrite present_pairs_cons_absent by done. by apply IH.
Qed.

(** C4. When the text of base URL and path carries no query of its own, the
    list behind the URL of a request with query parameters is the list of
    the entries that are neither [undefined] nor [null], in the order of the
    mapping, each value coerced to a string; no key of an omitted entry
    occurs in it; the query of the URL is the serialization of that list,
    and this URL is the one handed to [fetch]. For the mapping
    [{a: "x", b: undefined, c: 3, d: false}] the query is [a=x&c=3&d=false]. *)
Theorem query_parameters
    (rt : Runtime) (cfg : Rapid7Config) (method endpoint : string)
    (entries : list (string * ParamValue)) (body : JsValue) (w : World)
    (u0 : URL) :
  new_URL rt (baseUrl cfg +:+ endpoint) = Some u0 →
  Url.no_query u0 →
  NoDup entries.*1 →
  ∃ url,
    request_url rt cfg endpoint (Some entries) = Some url
    ∧ url_params url = present_pairs entries
    ∧ (∀ k v, (k, v) ∈ entries → present v = false → k ∉ (url_params url).*1)
    ∧ url_query url =
        match present_pairs entries with
        | [] => None
        | pairs => Some (Url.serialize pairs)
        end
    ∧ (entries = example_params → url_query url = Some "a=x&c=3&d=false")
    ∧ ∃ call,
        sent (request rt cfg method endpoint (Some entries) body w).1
          = sent w ++ [call]
        ∧ fc_url call = Url.toString url.
Proof.
  intros Hparse [Hq0 Hp0] Hnd.
  exists (set_params entries u0).
  assert (request_url rt cfg endpoint (Some entries)
          = Some (set_params entries u0)) as Hurl.
  { unfold request_url. by rewrite Hparse. }
  destruct (set_params_spec entries u0 Hnd) as (_ & _ & Hps & Hq).
  { intros k _. rewrite Hp0. apply not_elem_of_nil. }
  rewrite Hp0 in Hps, Hq. simpl in Hps, Hq. rewrite Hq0 in Hq.
  split; [done|]. split; [done|]. split.
  { intros k v Hin Hp. rewrite Hps. by eapply absent_key_not_present. }
  split; [by rewrite Hq; destruct (present_pairs entries)|]. split.
  { intros ->. by rewrite Hq. }
  exists (fetch_call cfg method (set_params entries u0) body).
  split; [by apply request_sends|done].
Qed.

Lemma query_parameters_witness :
  ∃ call,
    sent (request (Sample.host (λ _, TimerFires)) Sample.config
                  "GET" "/idr/v2/alerts" (Some example_params) JUndefined
                  Sample.world).1 = [call]
    ∧ fc_url call = "https://us.api.example.com/idr/v2/alerts?a=x&c=3&d=false".
Proof.
  destruct (query_parameters
              (Sample.host (λ _, TimerFires)) Sample.config
              "GET" "/idr/v2/alerts" example_params JUndefined Sample.world
              (mkURL "https://us.api.example.com/idr/v2/alerts" None [] None)
              eq_refl (conj eq_refl eq_refl))
    as (url & Hurl & _ & _ & _ & _ & call & Hsent & Hcall).
  { apply (bool_decide_unpack (NoDup example_params.*1)). vm_compute. exact I. }
  exists call. split; [exact Hsent|].
  rewrite Hcall. injection Hurl as <-. reflexivity.
Defined.

(** ** The base URL *)

Lemma getConfig_baseUrl (env : gmap string string) (cfg : Rapid7Config) :
  getConfig env = Return cfg →
  ∃ raw, baseUrl cfg = Str.strip_trailing_slashes raw
       ∧ (∀ given, env !! "RAPID7_BASE_URL" = Some given →
                   given ≠ EmptyString → raw = given).
Proof.
  unfold getConfig.
  destruct (falsy_string (env !! "RAPID7_API_KEY")); [done|].
  destruct (env !! "RAPID7_BASE_URL") as [given|] eqn:Hgiven; simpl.
  - destruct (String.eqb_spec given EmptyString) as [->|Hne]; simpl.
    + destruct (region_entry _) as [url| |]; simpl; try done.
      destruct (String.eqb url EmptyString); simpl; [done|].
      intros [= <-]. exists url. split; [done|]. by intros ? [= <-].
    + intros [= <-]. exists given. split; [done|]. by intros ? [= <-].
  - destruct (region_entry _) as [url| |]; simpl; try done.
    destruct (String.eqb url EmptyString); simpl; [done|].
    intros [= <-]. exists url. split; [done|]. by intros ? [= ].
Qed.

(** ** The investigation handler *)

Lemma mapM_total {A B : Type} (f : A → Result B) (g : A → B) (l : list A) :
  (∀ x, f x = Return (g x)) → mapM f l = Return (g <$> l).
Proof.
  intros Hf. induction l as [|x l IH]; [done|].
  simpl. rewrite Hf. simpl. by rewrite IH.
Qed.

Lemma bind_Return {A B : Type} (a : A) (k : A → Result B) :
  (Return a ≫= k) = k a.
Proof. reflexivity. Qed.

Lemma investigation_payload_defined (invResponse timelineResponse inv timeline : JsValue) :
  get_prop invResponse "data" = Some inv →
  inv ≠ JNull → inv ≠ JUndefined →
  get_prop timelineResponse "data" = Some timeline →
  investigation_payload invResponse timelineResponse
  = Return (success_payload (investigation_result inv timeline)).
Proof.
  intros Hinv Hnull Hundef Htl. unfold investigation_payload, read.
  rewrite Hinv, bind_Return.
  rewrite (mapM_total _ (λ key, (key, default JUndefined (get_prop inv key)))).
  - by rewrite bind_Return, Htl.
  - intros key. by destruct inv.
Qed.

(** C7. The handler of [get_investigation] never throws: it returns a
    payload. When the read of the investigation throws, the payload is the
    error payload made of the message of what was thrown: [isError] is
    [true] and the one text it carries is the JSON object whose [error] is
    that message, quoted. When that read succeeds and the read of the
    timeline throws, the handler goes on as if the timeline response were
    [{ data: [] }]: for an investigation that is there, the payload is the
    success payload, without [isError], whose text is the JSON of the fields
    of the investigation followed by an empty [timeline]. *)
Theorem get_investigation_recovers
    (rt : Runtime) (cfg : Rapid7Config) (investigation_id : string) (w : World) :
  let primary := getInvestigation rt cfg investigation_id w in
  let secondary := getInvestigationTimeline rt cfg investigation_id primary.1 in
  let result := (get_investigation rt cfg investigation_id w).2 in
  (∃ payload, result = Return payload)
  ∧ (∀ e, primary.2 = Throw e →
       result = Return (error_payload e)
       ∧ result = Return (mkToolResult
                            [mkText "text"
                               ("{" +:+ Json.quote "error" +:+ ":"
                                +:+ Json.quote (err_message e) +:+ "}")]
                            (Some true)))
  ∧ (∀ invResponse e,
       primary.2 = Return invResponse → secondary.2 = Throw e →
       result = try_catch (investigation_payload invResponse empty_timeline)
                          (λ error, Return (error_payload error))
       ∧ ∀ inv, get_prop invResponse "data" = Some inv →
                inv ≠ JNull → inv ≠ JUndefined →
                result = Return (success_payload
                                   (investigation_result inv (JArr [])))
                ∧ result = Return (mkToolResult
                                     [mkText "text"
                                        (stringify_object "  "
                                           (investigation_result inv (JArr [])))]
                                     None)
                ∧ lookup_prop "timeline" (investigation_result inv (JArr []))
                  = Some (JArr [])
                ∧ lookup_prop "id" (investigation_result inv (JArr []))
                  = Some (default JUndefined (get_prop inv "id"))).
Proof.
  intros primary secondary result.
  assert (result =
          try_catch (invResponse ← primary.2;
                     investigation_payload invResponse
                       (match secondary.2 with
                        | Return v => v
                        | Throw _ => empty_timeline
                        end))
                    (λ error, Return (error_payload error))) as Hresult.
  { unfold result, get_investigation, secondary, primary.
    destruct (getInvestigation rt cfg investigation_id w) as [w1 r1]. simpl.
    by destruct (getInvestigationTimeline rt cfg investigation_id w1). }
  split; [|split].
  - rewrite Hresult. destruct (primary.2) as [v|e]; simpl; [|by eexists].
    destruct (investigation_payload _ _); simpl; by eexists.
  - intros e He. rewrite Hresult, He. split; [done|].
    simpl. unfold error_payload, stringify_object.
    cbn [Json.serialize omap fmap option_fmap option_map fst snd default].
    unfold Json.wrap. simpl Str.join. simpl String.eqb. cbv iota.
    by rewrite !app_assoc_s, !app_empty_l.
  - intros invResponse e Hinv Htl. rewrite Hresult, Hinv, Htl. simpl.
    split; [done|]. intros inv Hdata Hnull Hundef.
    by rewrite (investigation_payload_defined _ _ inv (JArr []) Hdata Hnull Hundef).
Qed.

Lemma get_investigation_recovers_witness :
  (get_investigation (Sample.host SampleInvestigation.fetch) Sample.config
                     "abc" Sample.world).2
  = Return (success_payload
              (investigation_result
                 (JObj [("id", JStr "abc"); ("title", JStr "t")]) (JArr [])))
  ∧ (get_investigation
       (Sample.host (λ _, Responds (Sample.respond 404 "Not Found" []
                                      Sample.not_json)))
       Sample.config "abc" Sample.world).2
    = Return (mkToolResult
                [mkText "text"
                   ("{" +:+ Json.quote "error" +:+ ":"
                    +:+ Json.quote "Request failed: 404 Not Found" +:+ "}")]
                (Some true)).
Proof.
  split.
  - destruct (get_investigation_recovers
                (Sample.host SampleInvestigation.fetch) Sample.config
                "abc" Sample.world) as (_ & _ & Hdegrade).
    destruct (Hdegrade
                (JObj [("data", JObj [("id", JStr "abc"); ("title", JStr "t")])])
                (Rapid7ClientError "Request failed: 500 Internal Server Error"
                                   (Some 500)))
      as (_ & Hsuccess); [vm_compute; reflexivity..|].
    apply Hsuccess; [reflexivity|discriminate|discriminate].
  - destruct (get_investigation_recovers
                (Sample.host (λ _, Responds (Sample.respond 404 "Not Found" []
                                               Sample.not_json)))
                Sample.config "abc" Sample.world) as (_ & Hfailed & _).
    apply (Hfailed (Rapid7ClientError "Request failed: 404 Not Found" (Some 404))).
    vm_compute. reflexivity.
Defined.

(** ** Rate limiting *)

(** The status code of a rate-limit failure is 429, whatever the body. *)
Lemma rate_limit_status_code (response : Response) :
  status response = 429 →
  err_class (handleErrorResponse response) = RateLimitError
  ∧ statusCode (handleErrorResponse response) = Some 429.
Proof. intros H429. unfold handleErrorResponse. by rewrite H429. Qed.

(** Without the header, and with an empty one, [retryAfter] is
    [undefined]. *)
Lemma retry_after_absent (response : Response) :
  status response = 429 →
  falsy_string (headers_get "Retry-After" (headers response)) = true →
  retryAfter (handleErrorResponse response) = None.
Proof.
  intros H429 Hnone. unfold handleErrorResponse. rewrite H429. simpl.
  by rewrite Hnone.
Qed.

(** With a header that is not empty, [retryAfter] is what [parseInt] makes
    of it. *)
Lemma retry_after_present (response : Response) (value : string) :
  status response = 429 →
  headers_get "Retry-After" (headers response) = Some value →
  value ≠ EmptyString →
  retryAfter (handleErrorResponse response)
  = Some (number_of_parse (parseInt10 value)).
Proof.
  intros H429 Hget Hne. unfold handleErrorResponse. rewrite H429, Hget. simpl.
  by destruct (String.eqb_spec value EmptyString).
Qed.

Lemma retry_after_thirty :
  retryAfter (handleErrorResponse
                (Sample.respond 429 "Too Many Requests" [("Retry-After", "30")]
                                Sample.not_json))
  = Some (Int 30).
Proof. reflexivity. Qed.

(** C2. A 429 response whose [Retry-After] header is a date, which
    [parseInt] cannot read, makes [request] throw a rate-limit failure whose
    [retryAfter] is [NaN], not [undefined]; its status code is 429. *)
Theorem retry_after_of_a_date
    (rt : Runtime) (cfg : Rapid7Config) (method endpoint : string)
    (params : Params) (body : JsValue) (w : World) (url : URL) :
  request_url rt cfg endpoint params = Some url →
  fetch rt (fetch_call cfg method url body) = Responds SampleRetry.dated →
  headers_get "Retry-After" (headers SampleRetry.dated)
    = Some "Wed, 21 Oct 2015 07:28:00 GMT"
  ∧ parseInt10 "Wed, 21 Oct 2015 07:28:00 GMT" = None
  ∧ (request rt cfg method endpoint params body w).2
    = Throw (Rapid7RateLimitError
               "Rate limited: 429 Too Many Requests: slow down" (Some NaN))
  ∧ retryAfter (handleErrorResponse SampleRetry.dated) ≠ None
  ∧ statusCode (handleErrorResponse SampleRetry.dated) = Some 429.
Proof.
  intros Hurl Hfetch.
  rewrite (request_responds _ _ _ _ _ _ _ Hurl _ _ Hfetch).
  by repeat split.
Qed.

Lemma retry_after_of_a_date_witness :
  (request (Sample.host (λ _, Responds SampleRetry.dated)) Sample.config
           "GET" "/idr/v2/alerts" None JUndefined Sample.world).2
  = Throw (Rapid7RateLimitError
             "Rate limited: 429 Too Many Requests: slow down" (Some NaN)).
Proof.
  apply (retry_after_of_a_date
           (Sample.host (λ _, Responds SampleRetry.dated)) Sample.config
           "GET" "/idr/v2/alerts" None JUndefined Sample.world
           (mkURL "https://us.api.example.com/idr/v2/alerts" None [] None)
           eq_refl eq_refl).
Defined.

(** ** The timeout of the configuration *)

(** Without [RAPID7_TIMEOUT] the timeout is thirty seconds. *)
Lemma getConfig_default_timeout (env : gmap string string) (cfg : Rapid7Config) :
  getConfig env = Return cfg → env !! "RAPID7_TIMEOUT" = None →
  timeout cfg = Int 30000.
Proof.
  unfold getConfig. intros Hcfg Hunset. rewrite Hunset in Hcfg.
  destruct (falsy_string (env !! "RAPID7_API_KEY")); [done|].
  destruct (if falsy_string (env !! "RAPID7_BASE_URL") then _ else _)
    as [[url|]|]; simpl in Hcfg; try done.
  by injection Hcfg as <-.
Qed.

(** When [RAPID7_TIMEOUT] starts with a number, the timeout is a thousand
    times that number. *)
Lemma getConfig_timeout (env : gmap string string) (cfg : Rapid7Config) :
  getConfig env = Return cfg →
  timeout cfg =
    match parseInt10 (default "30" (env !! "RAPID7_TIMEOUT")) with
    | Some seconds => Int (seconds * 1000)
    | None => NaN
    end.
Proof.
  unfold getConfig. intros Hcfg.
  destruct (falsy_string (env !! "RAPID7_API_KEY")); [done|].
  destruct (if falsy_string (env !! "RAPID7_BASE_URL") then _ else _)
    as [[url|]|]; simpl in Hcfg; try done.
  by injection Hcfg as <-.
Qed.

(** C9. [getConfig] succeeds with a timeout that is no positive integer
    when [RAPID7_TIMEOUT] is set to a text that is no number (the timeout is
    [NaN]), to the empty text ([NaN] again, not the default), to zero or to
    a negative number. *)
Theorem timeout_not_validated :
  getConfig (SampleEnv.with_timeout "abc") = Return (SampleEnv.config NaN)
  ∧ getConfig (SampleEnv.with_timeout EmptyString) = Return (SampleEnv.config NaN)
  ∧ getConfig (SampleEnv.with_timeout "0") = Return (SampleEnv.config (Int 0))
  ∧ getConfig (SampleEnv.with_timeout "-5") = Return (SampleEnv.config (Int (-5000)))
  ∧ getConfig (SampleEnv.with_timeout "45") = Return (SampleEnv.config (Int 45000)).
Proof. repeat split; vm_compute; reflexivity. Qed.

(** ** Reading back a printed integer *)

Lemma pretty_N_char_digit (d : N) :
  (d < 10)%N →
  Str.is_digit (pretty_N_char d) = true
  ∧ Str.digit_value (pretty_N_char d) = Z.of_N d.
Proof.
  intros Hd.
  assert (d = 0 ∨ d = 1 ∨ d = 2 ∨ d = 3 ∨ d = 4 ∨ d = 5 ∨ d = 6 ∨ d = 7
          ∨ d = 8 ∨ d = 9)%N as Hcases by lia.
  repeat (destruct Hcases as [->|Hcases]; [by split|]). by subst.
Qed.

(** The digits [pretty_N_go] puts before [s] are read back by
    [read_digits]. *)
Lemma read_digits_pretty_N_go (x : N) :
  ∃ k : Z, 0 ≤ k ∧ ∀ acc s,
    read_digits acc (pretty_N_go x s) = read_digits (acc * 10 ^ k + Z.of_N x) s.
Proof.
  induction (N.lt_wf_0 x) as [x _ IH].
  destruct (decide (x = 0)%N) as [->|Hpos].
  - exists 0. split; [done|]. intros acc s. rewrite pretty_N_go_0.
    f_equal. lia.
  - destruct (IH (x `div` 10)%N) as (k & Hk & Hread).
    { apply N.div_lt; lia. }
    exists (k + 1). split; [lia|]. intros acc s.
    rewrite pretty_N_go_step by lia. rewrite Hread. simpl.
    destruct (pretty_N_char_digit (x `mod` 10)%N) as [-> ->].
    { apply N.mod_lt. lia. }
    f_equal. rewrite Z.pow_add_r by lia.
    pose proof (N.div_mod x 10 ltac:(lia)) as Hdm.
    rewrite N2Z.inj_div, N2Z.inj_mod in *.
    assert (Z.of_N x = 10 * (Z.of_N x `div` 10) + Z.of_N x `mod` 10) as Hx.
    { apply Z.div_mod. lia. }
    change (Z.of_N 10) with 10. lia.
Qed.

Lemma pretty_N_go_first (x : N) (s : string) :
  (0 < x)%N →
  ∃ c rest, pretty_N_go x s = String c rest ∧ Str.is_digit c = true.
Proof.
  revert s. induction (N.lt_wf_0 x) as [x _ IH]. intros s Hpos.
  rewrite pretty_N_go_step by done.
  destruct (decide (x `div` 10 = 0)%N) as [Hz|Hnz].
  - rewrite Hz, pretty_N_go_0. eexists _, _. split; [done|].
    apply pretty_N_char_digit, N.mod_lt. lia.
  - apply IH; [apply N.div_lt; lia|by apply N.neq_0_lt_0].
Qed.

Lemma digit_is_no_space (c : ascii) : Str.is_digit c = true → Str.is_space c = false.
Proof.
  unfold Str.is_digit, Str.is_space. intros Hd.
  apply andb_true_iff in Hd as [H1 H2].
  apply Nat.leb_le in H1, H2.
  repeat (apply orb_false_iff; split).
  - apply andb_false_iff. right. apply Nat.leb_gt. lia.
  - apply Nat.eqb_neq. lia.
  - apply Nat.eqb_neq. lia.
Qed.

Lemma pretty_N_go_app (x : N) (s : string) :
  pretty_N_go x s = pretty_N_go x EmptyString +:+ s.
Proof.
  revert s. induction (N.lt_wf_0 x) as [x _ IH]. intros s.
  destruct (decide (x = 0)%N) as [->|Hpos]; [by rewrite !pretty_N_go_0|].
  rewrite !(pretty_N_go_step x) by lia.
  rewrite (IH (x `div` 10)%N) by (apply N.div_lt; lia).
  rewrite (IH (x `div` 10)%N ltac:(apply N.div_lt; lia) (String _ EmptyString)).
  by rewrite app_assoc_s.
Qed.

Lemma read_digits_stop (acc : Z) (rest : string) :
  starts_with_digit rest = false → read_digits acc rest = acc.
Proof. destruct rest as [|c rest]; [done|]. simpl. by intros ->. Qed.

Lemma pretty_positive_digits (p : positive) (rest : string) :
  starts_with_digit rest = false →
  ∃ c r, pretty (Npos p) +:+ rest = String c r
       ∧ Str.is_digit c = true
       ∧ read_digits 0 (String c r) = Zpos p.
Proof.
  intros Hrest. unfold pretty, pretty_N. rewrite decide_False by done.
  rewrite <-pretty_N_go_app.
  destruct (pretty_N_go_first (Npos p) rest) as (c & r & Hs & Hc); [lia|].
  destruct (read_digits_pretty_N_go (Npos p)) as (k & Hk & Hread).
  specialize (Hread 0 rest). rewrite Hs in Hread.
  exists c, r. rewrite Hs, Hread. by rewrite read_digits_stop.
Qed.

(** [parseInt] reads back a printed integer, and stops at what follows it
    when that is no digit: [parseInt(String(z) + rest, 10)] is [z]. *)
Lemma parseInt10_pretty_then (z : Z) (rest : string) :
  starts_with_digit rest = false →
  parseInt10 (pretty z +:+ rest) = Some z.
Proof.
  intros Hrest. destruct z as [|p|p].
  - change (pretty 0) with "0". rewrite app_cons, app_empty_l.
    unfold parseInt10. simpl. by rewrite read_digits_stop.
  - change (pretty (Zpos p)) with (pretty (Npos p)).
    destruct (pretty_positive_digits p rest Hrest) as (c & r & -> & Hc & Hread).
    unfold parseInt10. simpl Str.skip_spaces.
    rewrite (digit_is_no_space c Hc).
    destruct c as [[] [] [] [] [] [] [] []]; try done;
      simpl in *; rewrite Hread; f_equal; lia.
  - change (pretty (Zneg p)) with ("-" +:+ pretty (Npos p)).
    rewrite app_assoc_s.
    destruct (pretty_positive_digits p rest Hrest) as (c & r & -> & Hc & Hread).
    rewrite app_cons, app_empty_l. unfold parseInt10.
    change (Str.skip_spaces (String "-" (String c r)))
      with (String "-" (String c r)).
    cbv beta iota. unfold starts_with_digit. rewrite Hc, Hread. f_equal.
Qed.

(** [parseInt(String(z), 10)] is [z]. *)
Lemma parseInt10_pretty (z : Z) : parseInt10 (pretty z) = Some z.
Proof.
  rewrite <-(app_empty_r (pretty z)). by apply parseInt10_pretty_then.
Qed.

(** ** The configuration *)

Lemma unknown_region_is_not_missing_key {A : Type} (region : string) :
  @Throw A (new_Error (unknown_region_message region))
  ≠ Throw (new_Error missing_key_message).
Proof. intros [= H]. Qed.

(** X1. [getConfig] throws the error that asks for [RAPID7_API_KEY] exactly
    when the variable is unset or empty, whatever the other variables
    hold. *)
Theorem getConfig_requires_key (env : gmap string string) :
  getConfig env = Throw (new_Error missing_key_message)
  ↔ falsy_string (env !! "RAPID7_API_KEY") = true.
Proof.
  unfold getConfig.
  destruct (falsy_string (env !! "RAPID7_API_KEY")); [done|].
  split; [|done]. intros Hthrow. exfalso.
  destruct (falsy_string (env !! "RAPID7_BASE_URL")).
  - destruct (region_entry _) as [url| |]; simpl in Hthrow.
    + destruct (String.eqb url EmptyString); simpl in Hthrow; [|done].
      by apply unknown_region_is_not_missing_key in Hthrow.
    + done.
    + by apply unknown_region_is_not_missing_key in Hthrow.
  - simpl in Hthrow. by destruct (env !! "RAPID7_BASE_URL").
Qed.

Lemma assoc_cons (key k v : string) (rest : list (string * string)) :
  assoc key ((k, v) :: rest) = if String.eqb k key then Some v else assoc key rest.
Proof. reflexivity. Qed.

Lemma assoc_REGION_URLS (region url : string) :
  assoc region REGION_URLS = Some url →
  region ∈ REGION_URLS.*1
  ∧ url = "https://" +:+ region +:+ ".api.insight.rapid7.com"
  ∧ Str.strip_trailing_slashes url = url
  ∧ url ≠ EmptyString.
Proof.
  unfold REGION_URLS.
  repeat (rewrite assoc_cons;
          match goal with
          | |- context [String.eqb ?k region] =>
              destruct (String.eqb_spec k region) as [<-|_]
          end;
          [intros [= <-]; split;
             [simpl; rewrite !elem_of_cons; auto 10
             |split; [reflexivity|split; [reflexivity|discriminate]]]|]).
  done.
Qed.

Lemma assoc_None_not_elem (region : string) (table : list (string * string)) :
  assoc region table = None ↔ region ∉ table.*1.
Proof.
  induction table as [|[k v] rest IH]; simpl.
  - split; [intros _; apply not_elem_of_nil|done].
  - rewrite not_elem_of_cons.
    destruct (String.eqb_spec k region) as [->|Hne]; [by split; [|intros [? _]]|].
    rewrite IH. naive_solver.
Qed.

Lemma getConfig_from_region (env : gmap string string) :
  falsy_string (env !! "RAPID7_API_KEY") = false →
  falsy_string (env !! "RAPID7_BASE_URL") = true →
  getConfig env =
    match region_entry (effective_region env) with
    | EntryUrl url =>
        if String.eqb url EmptyString
        then Throw (new_Error (unknown_region_message (effective_region env)))
        else Return (mkConfig (Str.strip_trailing_slashes url)
                       (default EmptyString (env !! "RAPID7_API_KEY"))
                       (effective_region env)
                       (match parseInt10 (default "30" (env !! "RAPID7_TIMEOUT")) with
                        | Some seconds => Int (seconds * 1000)
                        | None => NaN
                        end))
    | EntryInherited => Throw (new_TypeError "baseUrl.replace is not a function")
    | EntryUndefined =>
        Throw (new_Error (unknown_region_message (effective_region env)))
    end.
Proof.
  intros Hkey Hbase. unfold getConfig. rewrite Hkey, Hbase.
  fold (effective_region env).
  destruct (region_entry (effective_region env)) as [url| |]; simpl; try done.
  by destruct (String.eqb url EmptyString).
Qed.

(** X2. With a key and no base URL of its own, [getConfig] returns exactly
    when the region, lower-cased and [us] by default, is one of the seven
    of the table; the configuration then names that region and its base URL
    is [https://<region>.api.insight.rapid7.com]. *)
Theorem getConfig_region (env : gmap string string) :
  falsy_string (env !! "RAPID7_API_KEY") = false →
  falsy_string (env !! "RAPID7_BASE_URL") = true →
  ((∃ cfg, getConfig env = Return cfg)
   ↔ effective_region env ∈ REGION_URLS.*1)
  ∧ ∀ cfg, getConfig env = Return cfg →
      region cfg = effective_region env
      ∧ baseUrl cfg = "https://" +:+ region cfg +:+ ".api.insight.rapid7.com".
Proof.
  intros Hkey Hbase. rewrite (getConfig_from_region env Hkey Hbase).
  unfold region_entry.
  destruct (assoc (effective_region env) REGION_URLS) as [url|] eqn:Hassoc.
  - destruct (assoc_REGION_URLS _ _ Hassoc) as (Hin & Hurl & Hstrip & Hne).
    apply String.eqb_neq in Hne. rewrite Hne, Hstrip. split.
    + split; [done|]. intros _. by eexists.
    + by intros cfg [= <-].
  - apply assoc_None_not_elem in Hassoc. split.
    + split; [|done]. intros [cfg Hcfg]. by destruct (existsb _ _).
    + intros cfg Hcfg. by destruct (existsb _ _).
Qed.

Lemma getConfig_region_witness :
  ∃ cfg, getConfig (<["RAPID7_REGION" := "EU"]> {["RAPID7_API_KEY" := "key"]})
         = Return cfg
       ∧ baseUrl cfg = "https://eu.api.insight.rapid7.com".
Proof.
  eexists. split; [vm_compute; reflexivity|].
  destruct (getConfig_region
              (<["RAPID7_REGION" := "EU"]> {["RAPID7_API_KEY" := "key"]}))
    as [_ Hshape]; [vm_compute; reflexivity..|].
  apply Hshape. vm_compute. reflexivity.
Defined.

Lemma getConfig_unknown_message (region : string) :
  Str.contains region (unknown_region_message region)
  ∧ Str.contains "us, us2, us3, eu, ca, au, ap" (unknown_region_message region).
Proof.
  unfold unknown_region_message. split.
  - apply contains_after, contains_here.
  - do 4 apply contains_after. apply contains_here.
Qed.

(** X3. With a key, no base URL of its own and a region that is neither in
    the table nor a name every object inherits, [getConfig] throws an
    [Error] whose message names the region as it was looked up (lower-cased)
    and lists the seven valid regions. *)
Theorem getConfig_unknown_region (env : gmap string string) :
  falsy_string (env !! "RAPID7_API_KEY") = false →
  falsy_string (env !! "RAPID7_BASE_URL") = true →
  effective_region env ∉ REGION_URLS.*1 →
  effective_region env ∉ Object_prototype_names →
  ∃ e, getConfig env = Throw e
     ∧ err_class e = PlainError
     ∧ Str.contains (effective_region env) (err_message e)
     ∧ Str.contains "us, us2, us3, eu, ca, au, ap" (err_message e).
Proof.
  intros Hkey Hbase Htable Hproto.
  rewrite (getConfig_from_region env Hkey Hbase). unfold region_entry.
  apply assoc_None_not_elem in Htable. rewrite Htable.
  assert (existsb (String.eqb (effective_region env)) Object_prototype_names
          = false) as ->.
  { apply not_true_is_false. intros Hex. apply Hproto.
    apply existsb_exists in Hex as (name & Hin & Heq).
    apply String.eqb_eq in Heq as ->. by apply list_elem_of_In. }
  eexists. split; [done|]. split; [done|]. apply getConfig_unknown_message.
Qed.

Lemma getConfig_unknown_region_witness :
  ∃ e, getConfig (<["RAPID7_REGION" := "Mars"]> {["RAPID7_API_KEY" := "key"]})
       = Throw e
     ∧ Str.contains "mars" (err_message e).
Proof.
  destruct (getConfig_unknown_region
              (<["RAPID7_REGION" := "Mars"]> {["RAPID7_API_KEY" := "key"]}))
    as (e & Hthrow & _ & Hnames & _).
  - vm_compute; reflexivity.
  - vm_compute; reflexivity.
  - apply (bool_decide_unpack
             (effective_region (<["RAPID7_REGION" := "Mars"]>
                                {["RAPID7_API_KEY" := "key"]})
              ∉ REGION_URLS.*1)).
    vm_compute. exact I.
  - apply (bool_decide_unpack
             (effective_region (<["RAPID7_REGION" := "Mars"]>
                                {["RAPID7_API_KEY" := "key"]})
              ∉ Object_prototype_names)).
    vm_compute. exact I.
  - exists e. split; [exact Hthrow|exact Hnames].
Defined.

(** X4. A region that, lower-cased, is a name every object inherits
    ([constructor], [__proto__]) is found in the table as something that is
    no string: with a key and no base URL of its own, [getConfig] then
    throws a [TypeError], not the error that lists the valid regions. *)
Theorem getConfig_inherited_region (env : gmap string string) :
  falsy_string (env !! "RAPID7_API_KEY") = false →
  falsy_string (env !! "RAPID7_BASE_URL") = true →
  effective_region env ∈ Object_prototype_names →
  ∃ e, getConfig env = Throw e
     ∧ err_class e = TypeError
     ∧ e ≠ new_Error (unknown_region_message (effective_region env)).
Proof.
  intros Hkey Hbase Hproto.
  rewrite (getConfig_from_region env Hkey Hbase).
  assert (region_entry (effective_region env) = EntryInherited) as ->.
  { unfold Object_prototype_names in Hproto.
    rewrite !elem_of_cons, elem_of_nil in Hproto.
    repeat (destruct Hproto as [->|Hproto]; [reflexivity|]). done. }
  by eexists.
Qed.

Lemma getConfig_inherited_region_witness :
  ∃ e, getConfig (<["RAPID7_REGION" := "Constructor"]> {["RAPID7_API_KEY" := "key"]})
       = Throw e
     ∧ err_class e = TypeError.
Proof.
  destruct (getConfig_inherited_region
              (<["RAPID7_REGION" := "Constructor"]> {["RAPID7_API_KEY" := "key"]}))
    as (e & Hthrow & Hclass & _).
  - vm_compute; reflexivity.
  - vm_compute; reflexivity.
  - apply (bool_decide_unpack
             (effective_region (<["RAPID7_REGION" := "Constructor"]>
                                {["RAPID7_API_KEY" := "key"]})
              ∈ Object_prototype_names)).
    vm_compute. exact I.
  - exists e. split; [exact Hthrow|exact Hclass].
Defined.

Lemma getConfig_from_override (env : gmap string string) (given : string) :
  falsy_string (env !! "RAPID7_API_KEY") = false →
  env !! "RAPID7_BASE_URL" = Some given → given ≠ EmptyString →
  getConfig env =
    Return (mkConfig (Str.strip_trailing_slashes given)
              (default EmptyString (env !! "RAPID7_API_KEY"))
              (effective_region env)
              (match parseInt10 (default "30" (env !! "RAPID7_TIMEOUT")) with
               | Some seconds => Int (seconds * 1000)
               | None => NaN
               end)).
Proof.
  intros Hkey Hgiven Hne. unfold getConfig. rewrite Hkey, Hgiven. simpl.
  apply String.eqb_neq in Hne. by rewrite Hne.
Qed.

(** X5. A base URL given in [RAPID7_BASE_URL] wins over the region: with a
    key, [getConfig] returns for every value of [RAPID7_REGION], also one
    the table does not know, and the configuration carries the given URL
    less its trailing slashes and the region lower-cased. *)
Theorem getConfig_base_url_override (env : gmap string string) (given : string) :
  falsy_string (env !! "RAPID7_API_KEY") = false →
  env !! "RAPID7_BASE_URL" = Some given → given ≠ EmptyString →
  ∃ cfg, getConfig env = Return cfg
       ∧ baseUrl cfg = Str.strip_trailing_slashes given
       ∧ region cfg = effective_region env.
Proof.
  intros Hkey Hgiven Hne.
  rewrite (getConfig_from_override env given Hkey Hgiven Hne). by eexists.
Qed.

Lemma getConfig_base_url_override_witness :
  ∃ cfg, getConfig (<["RAPID7_BASE_URL" := "http://localhost:8080/"]>
                    (<["RAPID7_REGION" := "Mars"]> {["RAPID7_API_KEY" := "key"]}))
         = Return cfg
       ∧ baseUrl cfg = "http://localhost:8080"
       ∧ region cfg = "mars".
Proof.
  destruct (getConfig_base_url_override
              (<["RAPID7_BASE_URL" := "http://localhost:8080/"]>
               (<["RAPID7_REGION" := "Mars"]> {["RAPID7_API_KEY" := "key"]}))
              "http://localhost:8080/")
    as (cfg & Hcfg & Hbase & Hregion).
  - vm_compute; reflexivity.
  - vm_compute; reflexivity.
  - discriminate.
  - exists cfg. split; [exact Hcfg|]. rewrite Hbase, Hregion.
    split; vm_compute; reflexivity.
Defined.

Lemma strip_trailing_slashes_cons (c : ascii) (rest : string) :
  Str.strip_trailing_slashes (String c rest) =
    match Str.strip_trailing_slashes rest with
    | EmptyString =>
        if Str.eqb_char c "/" then EmptyString else String c EmptyString
    | kept => String c kept
    end.
Proof. reflexivity. Qed.

(** What [strip_trailing_slashes] drops is a run of slashes at the end. *)
Lemma strip_trailing_slashes_spec (s : string) :
  ∃ n, s = Str.strip_trailing_slashes s +:+ slashes n.
Proof.
  induction s as [|c rest [n IH]]; [by exists 0%nat|].
  rewrite strip_trailing_slashes_cons.
  destruct (Str.strip_trailing_slashes rest) as [|k kept] eqn:E.
  - rewrite app_empty_l in IH.
    destruct (Ascii.eqb_spec c "/") as [->|Hne].
    + unfold Str.eqb_char. rewrite Ascii.eqb_refl.
      exists (S n). by rewrite IH.
    + unfold Str.eqb_char. apply Ascii.eqb_neq in Hne. rewrite Hne.
      exists n. by rewrite IH.
  - exists n. by rewrite app_cons, <-IH.
Qed.

(** A text that does not end in a slash is kept as it is. *)
Lemma strip_trailing_slashes_id (s : string) :
  Str.ends_with "/" s = false → Str.strip_trailing_slashes s = s.
Proof.
  induction s as [|c rest IH]; [done|].
  rewrite strip_trailing_slashes_cons. simpl.
  destruct rest as [|d rest'].
  - intros ->. done.
  - intros Hend. rewrite (IH Hend). done.
Qed.



(** X6. Normalizing the base URL takes away a run of slashes at its end and
    nothing else: the given URL is the configured one followed by slashes
    only, a URL that does not end in a slash is kept as it is, and
    normalizing twice changes nothing more. *)
Theorem base_url_drops_only_slashes (env : gmap string string)
    (cfg : Rapid7Config) (given : string) :
  getConfig env = Return cfg →
  env !! "RAPID7_BASE_URL" = Some given → given ≠ EmptyString →
  (∃ n, given = baseUrl cfg +:+ slashes n)
  ∧ (Str.ends_with "/" given = false → baseUrl cfg = given)
  ∧ Str.strip_trailing_slashes (baseUrl cfg) = baseUrl cfg.
Proof.
  intros Hcfg Hgiven Hne.
  destruct (getConfig_baseUrl env cfg Hcfg) as (raw & Hbase & Hraw).
  rewrite (Hraw given Hgiven Hne) in Hbase. rewrite Hbase.
  split; [apply strip_trailing_slashes_spec|].
  split; [apply strip_trailing_slashes_id|].
  apply strip_trailing_slashes_id, strip_no_slash.
Qed.

Lemma base_url_drops_only_slashes_witness :
  ∃ n, "https://proxy.example.com/r7//" = "https://proxy.example.com/r7" +:+ slashes n.
Proof.
  destruct (base_url_drops_only_slashes
              (<["RAPID7_BASE_URL" := "https://proxy.example.com/r7//"]>
               {["RAPID7_API_KEY" := "key"]})
              (mkConfig "https://proxy.example.com/r7" "key" "us" (Int 30000))
              "https://proxy.example.com/r7//")
    as [Hslashes _].
  - vm_compute; reflexivity.
  - vm_compute; reflexivity.
  - discriminate.
  - exact Hslashes.
Defined.

(** X7. The key of a configuration [getConfig] returns is the value of
    [RAPID7_API_KEY], and is not empty. *)
Theorem getConfig_api_key (env : gmap string string) (cfg : Rapid7Config) :
  getConfig env = Return cfg →
  env !! "RAPID7_API_KEY" = Some (apiKey cfg) ∧ apiKey cfg ≠ EmptyString.
Proof.
  unfold getConfig.
  destruct (env !! "RAPID7_API_KEY") as [key|] eqn:Hkey; simpl; [|done].
  destruct (String.eqb_spec key EmptyString) as [->|Hne]; [done|].
  destruct (if falsy_string (env !! "RAPID7_BASE_URL") then _ else _)
    as [[url|]|]; simpl; try done.
  by intros [= <-].
Qed.

Lemma getConfig_api_key_witness :
  apiKey (mkConfig "https://us.api.insight.rapid7.com" "key" "us" (Int 30000))
  ≠ EmptyString.
Proof.
  apply (getConfig_api_key {["RAPID7_API_KEY" := "key"]}).
  vm_compute. reflexivity.
Defined.

(** X8. The timeout of a configuration is thirty thousand when
    [RAPID7_TIMEOUT] is unset, and otherwise a thousand times the number of
    seconds the variable starts with: a number written in decimal, alone or
    followed by something that does not go on with a digit (a unit, say),
    gives that many thousand milliseconds, as long as the milliseconds are
    an integer a double holds exactly. *)
Theorem getConfig_timeout_seconds (env : gmap string string) (cfg : Rapid7Config) :
  getConfig env = Return cfg →
  (env !! "RAPID7_TIMEOUT" = None → timeout cfg = Int 30000)
  ∧ ∀ (seconds : Z) (rest : string),
      env !! "RAPID7_TIMEOUT" = Some (pretty seconds +:+ rest) →
      starts_with_digit rest = false →
      safe_integer (seconds * 1000) →
      timeout cfg = Int (seconds * 1000).
Proof.
  intros Hcfg. split; [by apply getConfig_default_timeout|].
  intros seconds rest Hset Hrest _.
  rewrite (getConfig_timeout env cfg Hcfg), Hset. simpl.
  by rewrite parseInt10_pretty_then.
Qed.

Lemma getConfig_timeout_seconds_witness :
  timeout (SampleEnv.config (Int 45000)) = Int (45 * 1000).
Proof.
  destruct (getConfig_timeout_seconds (SampleEnv.with_timeout "45s")
              (SampleEnv.config (Int 45000)))
    as [_ Hset]; [vm_compute; reflexivity|].
  apply (Hset 45 "s"); [vm_compute; reflexivity..|].
  unfold safe_integer. lia.
Defined.

(** ** More about [request] *)

(** X9. A success other than 204 gives what [response.json()] gives as it
    is: the decoded value, or the failure to decode, thrown on without
    being classified. *)
Theorem success_passthrough
    (rt : Runtime) (cfg : Rapid7Config) (method endpoint : string)
    (params : Params) (body : JsValue) (w : World)
    (url : URL) (response : Response) :
  request_url rt cfg endpoint params = Some url →
  fetch rt (fetch_call cfg method url body) = Responds response →
  ok response = true → status response ≠ 204 →
  (request rt cfg method endpoint params body w).2 = json response.
Proof.
  intros Hurl Hfetch Hok H204.
  rewrite (request_responds _ _ _ _ _ _ _ Hurl _ _ Hfetch), Hok. simpl.
  by destruct (Z.eqb_spec (status response) 204).
Qed.

Lemma success_passthrough_witness :
  (request (Sample.host (λ _, Responds (Sample.respond 201 "Created" []
                                           Sample.not_json)))
           Sample.config "POST" "/idr/v2/investigations" None
           (JObj [("title", JStr "t")]) Sample.world).2
  = Sample.not_json.
Proof.
  apply (success_passthrough
           (Sample.host (λ _, Responds (Sample.respond 201 "Created" []
                                           Sample.not_json)))
           Sample.config "POST" "/idr/v2/investigations" None
           (JObj [("title", JStr "t")]) Sample.world
           (mkURL "https://us.api.example.com/idr/v2/investigations" None [] None)
           (Sample.respond 201 "Created" [] Sample.not_json)
           eq_refl eq_refl eq_refl).
  discriminate.
Defined.

(** X10. The message of a classified failure is a prefix that tells its
    kind, then status and status text, then, when the body decodes to an
    object whose [message] is a text that is not empty, a colon and that
    text. A body that does not decode, the body [null], an object without
    [message] or with an empty one leave status and status text alone. *)
Theorem error_message_of_body (response : Response) :
  let base := pretty (status response) +:+ " " +:+ statusText response in
  (∃ prefix,
     prefix ∈ ["Authentication failed: "; "Rate limited: "; "Request failed: "]
     ∧ err_message (handleErrorResponse response)
       = prefix +:+ error_message response)
  ∧ (∀ props m,
       json response = Return (JObj props) →
       lookup_prop "message" props = Some (JStr m) → m ≠ EmptyString →
       error_message response = base +:+ ": " +:+ m)
  ∧ (∀ e, json response = Throw e → error_message response = base)
  ∧ (json response = Return JNull → error_message response = base)
  ∧ (∀ props,
       json response = Return (JObj props) →
       lookup_prop "message" props = None
       ∨ lookup_prop "message" props = Some (JStr EmptyString) →
       error_message response = base).
Proof.
  intros base. split; [|split; [|split; [|split]]].
  - unfold handleErrorResponse.
    destruct ((status response =? 401) || (status response =? 403)).
    { exists "Authentication failed: ". split; [set_solver|done]. }
    destruct (status response =? 429).
    { exists "Rate limited: ". split; [set_solver|done]. }
    exists "Request failed: ". split; [set_solver|done].
  - intros props m Hjson Hmsg Hne. unfold error_message.
    rewrite Hjson. simpl. rewrite Hmsg. simpl.
    apply String.eqb_neq in Hne. rewrite Hne. simpl.
    unfold base. by rewrite !app_assoc_s.
  - intros e Hjson. unfold error_message. by rewrite Hjson.
  - intros Hjson. unfold error_message. by rewrite Hjson.
  - intros props Hjson Hmsg. unfold error_message. rewrite Hjson. simpl.
    by destruct Hmsg as [-> | ->].
Qed.

Lemma error_message_of_body_witness :
  error_message (Sample.respond 404 "Not Found" []
                   (Return (JObj [("message", JStr "no such investigation")])))
  = "404 Not Found: no such investigation".
Proof.
  destruct (error_message_of_body
              (Sample.respond 404 "Not Found" []
                 (Return (JObj [("message", JStr "no such investigation")]))))
    as (_ & Henrich & _).
  apply (Henrich [("message", JStr "no such investigation")]
                 "no such investigation");
    [reflexivity|reflexivity|discriminate].
Defined.

(** X11. A text the URL parser refuses makes [request] throw a [TypeError]
    before anything else happens: no timer is set and nothing is handed to
    [fetch]. When the text is accepted, exactly one call is handed to
    [fetch], whatever comes of it, with the method as given, the URL as
    built, and three headers: the configured key, and JSON as content type
    and as accepted type. *)
Theorem request_calls
    (rt : Runtime) (cfg : Rapid7Config) (method endpoint : string)
    (params : Params) (body : JsValue) (w : World) :
  (request_url rt cfg endpoint params = None →
   ∃ e, request rt cfg method endpoint params body w = (w, Throw e)
      ∧ err_class e = TypeError)
  ∧ (∀ url, request_url rt cfg endpoint params = Some url →
       ∃ call,
         sent (request rt cfg method endpoint params body w).1 = sent w ++ [call]
         ∧ fc_method call = method
         ∧ fc_url call = Url.toString url
         ∧ fc_headers call = [ ("X-Api-Key", apiKey cfg);
                               ("Content-Type", "application/json");
                               ("Accept", "application/json") ]).
Proof.
  split.
  - intros Hurl. unfold request. rewrite Hurl. by eexists.
  - intros url Hurl. exists (fetch_call cfg method url body).
    split; [by apply request_sends|done].
Qed.

Lemma request_calls_witness :
  ∃ e, request (mkRuntime (λ _, None) (λ _, TimerFires)) Sample.config
               "GET" "/idr/v2/alerts" None JUndefined Sample.world
       = (Sample.world, Throw e).
Proof.
  destruct (request_calls (mkRuntime (λ _, None) (λ _, TimerFires)) Sample.config
              "GET" "/idr/v2/alerts" None JUndefined Sample.world)
    as [Hrefused _].
  destruct (Hrefused eq_refl) as (e & Hthrow & _).
  exists e. exact Hthrow.
Defined.

(** ** Parameters and a query the URL already has *)

Lemma assoc_filter_other (k name : string) (pairs : list (string * string)) :
  k ≠ name →
  assoc k (filter (λ kv, negb (String.eqb kv.1 name)) pairs) = assoc k pairs.
Proof.
  intros Hne. induction pairs as [|[a b] rest IH]; [done|].
  rewrite assoc_cons.
  destruct (String.eqb_spec a name) as [->|Ha].
  - rewrite filter_cons_False by (simpl; rewrite String.eqb_refl; by intros []).
    apply String.eqb_neq in Hne. rewrite String.eqb_sym in Hne. by rewrite Hne.
  - rewrite filter_cons_True.
    + rewrite assoc_cons. by rewrite IH.
    + simpl. apply String.eqb_neq in Ha. by rewrite Ha.
Qed.

Lemma assoc_set_pair_same (k v : string) (pairs : list (string * string)) :
  assoc k (Url.set_pair k v pairs) = Some v.
Proof.
  induction pairs as [|[a b] rest IH]; simpl.
  - by rewrite String.eqb_refl.
  - destruct (String.eqb_spec a k) as [->|Ha].
    + rewrite assoc_cons. by rewrite String.eqb_refl.
    + rewrite assoc_cons. apply String.eqb_neq in Ha. by rewrite Ha.
Qed.

Lemma assoc_set_pair_other (k name v : string) (pairs : list (string * string)) :
  k ≠ name → assoc k (Url.set_pair name v pairs) = assoc k pairs.
Proof.
  intros Hne. induction pairs as [|[a b] rest IH]; simpl.
  - apply String.eqb_neq in Hne. rewrite String.eqb_sym in Hne. by rewrite Hne.
  - destruct (String.eqb_spec a name) as [->|Ha].
    + rewrite !assoc_cons. rewrite assoc_filter_other by done.
      apply String.eqb_neq in Hne. rewrite String.eqb_sym in Hne.
      by rewrite Hne.
    + rewrite !assoc_cons. by rewrite IH.
Qed.

Lemma set_params_lookup (entries : list (string * ParamValue)) : ∀ u,
  NoDup entries.*1 →
  (∀ k v, (k, v) ∈ entries → present v = true →
          assoc k (url_params (set_params entries u)) = Some (param_to_string v))
  ∧ (∀ k, k ∉ (present_pairs entries).*1 →
          assoc k (url_params (set_params entries u)) = assoc k (url_params u)).
Proof.
  induction entries as [|[k0 v0] rest IH]; intros u Hnd.
  - split; [|done]. intros k v Hin. by apply elem_of_nil in Hin.
  - simpl in Hnd. apply NoDup_cons in Hnd as [Hk0 Hnd].
    rewrite set_params_cons.
    destruct (present v0) eqn:Hp0.
    + destruct (IH (Url.searchParams_set k0 (param_to_string v0) u) Hnd)
        as [Hset Hkeep].
      split.
      * intros k v Hin Hp. apply elem_of_cons in Hin as [[= -> ->]|Hin].
        -- rewrite Hkeep by (intros ?%present_pairs_keys; done).
           simpl. apply assoc_set_pair_same.
        -- by apply Hset.
      * intros k Hk. rewrite present_pairs_cons_present in Hk by done.
        simpl in Hk. apply not_elem_of_cons in Hk as [Hne Hk].
        rewrite (Hkeep k Hk). simpl. by apply assoc_set_pair_other.
    + destruct (IH u Hnd) as [Hset Hkeep]. split.
      * intros k v Hin Hp. apply elem_of_cons in Hin as [[= -> ->]|Hin].
        -- congruence.
        -- by apply Hset.
      * intros k Hk. rewrite present_pairs_cons_absent in Hk by done.
        by apply Hkeep.
Qed.

(** X12. Whatever query the text of base URL and path already carries, in
    the URL of a request every parameter that is neither [undefined] nor
    [null] has the value of the mapping, coerced to a string, and every
    name the mapping does not set keeps the value it had. *)
Theorem params_override_query
    (rt : Runtime) (cfg : Rapid7Config) (endpoint : string)
    (entries : list (string * ParamValue)) (u0 : URL) :
  new_URL rt (baseUrl cfg +:+ endpoint) = Some u0 →
  NoDup entries.*1 →
  ∃ url,
    request_url rt cfg endpoint (Some entries) = Some url
    ∧ (∀ k v, (k, v) ∈ entries → present v = true →
         assoc k (url_params url) = Some (param_to_string v))
    ∧ (∀ k, k ∉ (present_pairs entries).*1 →
         assoc k (url_params url) = assoc k (url_params u0)).
Proof.
  intros Hparse Hnd. exists (set_params entries u0).
  split; [unfold request_url; by rewrite Hparse|].
  by apply set_params_lookup.
Qed.

Lemma params_override_query_witness :
  ∃ url,
    request_url
      (mkRuntime (λ s, Some (mkURL s (Some "size=5&x=1") [("size", "5"); ("x", "1")] None))
                 (λ _, TimerFires))
      Sample.config "/idr/v2/alerts"
      (Some [("size", PNumber (Int 20)); ("skip", PUndefined)]) = Some url
    ∧ assoc "size" (url_params url) = Some "20"
    ∧ assoc "x" (url_params url) = Some "1".
Proof.
  destruct (params_override_query
              (mkRuntime (λ s, Some (mkURL s (Some "size=5&x=1")
                                       [("size", "5"); ("x", "1")] None))
                         (λ _, TimerFires))
              Sample.config "/idr/v2/alerts"
              [("size", PNumber (Int 20)); ("skip", PUndefined)]
              (mkURL "https://us.api.example.com/idr/v2/alerts" (Some "size=5&x=1")
                     [("size", "5"); ("x", "1")] None)
              eq_refl)
    as (url & Hurl & Hset & Hkeep).
  { apply (bool_decide_unpack (NoDup ["size"; "skip"])). vm_compute. exact I. }
  exists url. split; [exact Hurl|]. split.
  - apply (Hset "size" (PNumber (Int 20))); [|reflexivity].
    rewrite elem_of_cons. by left.
  - rewrite (Hkeep "x"); [reflexivity|].
    apply (bool_decide_unpack
             ("x" ∉ (present_pairs [("size", PNumber (Int 20)); ("skip", PUndefined)]).*1)).
    vm_compute. exact I.
Defined.

Lemma set_params_all_absent (entries : list (string * ParamValue)) (u : URL) :
  (∀ kv, kv ∈ entries → present kv.2 = false) → set_params entries u = u.
Proof.
  induction entries as [|[k v] rest IH]; intros Habsent; [done|].
  rewrite set_params_cons.
  assert (present v = false) as ->.
  { apply (Habsent (k, v)). rewrite elem_of_cons. by left. }
  apply IH. intros kv Hin. apply Habsent. rewrite elem_of_cons. by right.
Qed.

(** X13. A mapping all of whose values are [undefined] or [null], the empty
    mapping among them, changes nothing: the URL of the request is the one
    of a request without parameters. *)
Theorem absent_params_change_nothing
    (rt : Runtime) (cfg : Rapid7Config) (endpoint : string)
    (entries : list (string * ParamValue)) :
  (∀ kv, kv ∈ entries → present kv.2 = false) →
  request_url rt cfg endpoint (Some entries) = request_url rt cfg endpoint None.
Proof.
  intros Habsent. unfold request_url.
  destruct (new_URL rt _) as [u|]; simpl; [|done].
  by rewrite set_params_all_absent.
Qed.

Lemma absent_params_change_nothing_witness :
  request_url (Sample.host (λ _, TimerFires)) Sample.config "/idr/v2/alerts"
              (Some [("a", PUndefined); ("b", PNull)])
  = request_url (Sample.host (λ _, TimerFires)) Sample.config "/idr/v2/alerts" None.
Proof.
  apply absent_params_change_nothing.
  intros kv Hin. rewrite !elem_of_cons, elem_of_nil in Hin.
  destruct Hin as [->|[->|[]]]; reflexivity.
Defined.

(** ** The retry hint *)

(** X14. A 429 response whose [Retry-After] header is a number of seconds
    written in decimal, alone or followed by something that does not go on
    with a digit, gives a rate-limit failure whose [retryAfter] is that
    number, as long as it is an integer a double holds exactly. *)
Theorem retry_after_seconds (response : Response) (seconds : Z) (rest : string) :
  status response = 429 →
  headers_get "Retry-After" (headers response) = Some (pretty seconds +:+ rest) →
  starts_with_digit rest = false →
  safe_integer seconds →
  retryAfter (handleErrorResponse response) = Some (Int seconds).
Proof.
  intros H429 Hget Hrest _.
  rewrite (retry_after_present response (pretty seconds +:+ rest) H429 Hget).
  - by rewrite parseInt10_pretty_then.
  - intros Hempty. pose proof (parseInt10_pretty_then seconds rest Hrest) as Hparse.
    by rewrite Hempty in Hparse.
Qed.

Lemma retry_after_seconds_witness :
  retryAfter (handleErrorResponse
                (Sample.respond 429 "Too Many Requests" [("retry-after", "120")]
                                Sample.not_json))
  = Some (Int 120).
Proof.
  apply (retry_after_seconds
           (Sample.respond 429 "Too Many Requests" [("retry-after", "120")]
                           Sample.not_json) 120 EmptyString);
    [reflexivity..|].
  unfold safe_integer. lia.
Defined.

(** ** More about the handlers *)

Lemma guarded_returns (work : Result ToolResult) :
  ∃ payload, guarded work = Return payload.
Proof. destruct work; by eexists. Qed.

(** X15. None of the handlers of [search_investigations],
    [create_investigation], [update_investigation],
    [add_investigation_comment] and [get_investigation_alerts] throws:
    whatever the host does, each returns a payload. *)
Theorem handlers_never_throw (rt : Runtime) (cfg : Rapid7Config) (w : World) :
  (∀ status priority assignee_email start_time end_time sort size index,
     ∃ payload,
       (search_investigations rt cfg status priority assignee_email
          start_time end_time sort size index w).2 = Return payload)
  ∧ (∀ title priority status disposition assignee_email,
       ∃ payload,
         (create_investigation rt cfg title priority status disposition
            assignee_email w).2 = Return payload)
  ∧ (∀ id status priority disposition assignee_email title,
       ∃ payload,
         (update_investigation rt cfg id status priority disposition
            assignee_email title w).2 = Return payload)
  ∧ (∀ id commentBody visibility,
       ∃ payload,
         (add_investigation_comment rt cfg id commentBody visibility w).2
         = Return payload)
  ∧ (∀ id size index,
       ∃ payload,
         (get_investigation_alerts rt cfg id size index w).2 = Return payload).
Proof.
  repeat split; intros.
  - unfold search_investigations.
    destruct (getInvestigations _ _ _ _) as [w1 settled]. apply guarded_returns.
  - unfold create_investigation.
    destruct (createInvestigation _ _ _ _) as [w1 settled]. apply guarded_returns.
  - unfold update_investigation.
    destruct (length _ =? 0)%nat; [by eexists|].
    destruct (updateInvestigation _ _ _ _ _) as [w1 settled]. apply guarded_returns.
  - unfold add_investigation_comment.
    destruct (addInvestigationComment _ _ _ _ _) as [w1 settled].
    apply guarded_returns.
  - unfold get_investigation_alerts.
    destruct (getInvestigationAlerts _ _ _ _ _) as [w1 settled].
    apply guarded_returns.
Qed.

Lemma update_body_empty (status priority disposition assignee_email title : option string) :
  update_body status priority disposition assignee_email title = []
  ↔ falsy_string status = true ∧ falsy_string priority = true
    ∧ falsy_string disposition = true ∧ falsy_string assignee_email = true
    ∧ falsy_string title = true.
Proof.
  unfold update_body, optional_field, assignee_field.
  destruct (falsy_string status), (falsy_string priority),
    (falsy_string disposition), (falsy_string assignee_email),
    (falsy_string title); simpl; split; try done; intros (? & ? & ? & ? & ?); done.
Qed.



Lemma handler_world {A B : Type} (p : World * A) (f : A → B) :
  (let '(w, settled) := p in (w, f settled)).1 = p.1.
Proof. by destruct p. Qed.

(** X17. When at least one field is given and the URL of the investigation
    parses, [update_investigation] hands exactly one call to [fetch]: a
    PATCH of that URL whose body is the JSON text of an object that has the
    given fields and no others, the assignee as an object with the e-mail
    address. *)
Theorem update_sends_given_fields
    (rt : Runtime) (cfg : Rapid7Config) (investigation_id : string)
    (status priority disposition assignee_email title : option string)
    (w : World) (url : URL) :
  request_url rt cfg ("/idr/v2/investigations/" +:+ investigation_id) None
    = Some url →
  ¬ (falsy_string status = true ∧ falsy_string priority = true
     ∧ falsy_string disposition = true ∧ falsy_string assignee_email = true
     ∧ falsy_string title = true) →
  let body := update_body status priority disposition assignee_email title in
  (∃ call,
     sent (update_investigation rt cfg investigation_id status priority
             disposition assignee_email title w).1 = sent w ++ [call]
     ∧ fc_method call = "PATCH"
     ∧ fc_url call = Url.toString url
     ∧ fc_body call = Json.stringify (JObj body)
     ∧ is_Some (fc_body call))
  ∧ lookup_prop "status" body = (if falsy_string status then None
                                 else Some (JStr (default EmptyString status)))
  ∧ lookup_prop "priority" body = (if falsy_string priority then None
                                   else Some (JStr (default EmptyString priority)))
  ∧ lookup_prop "disposition" body
    = (if falsy_string disposition then None
       else Some (JStr (default EmptyString disposition)))
  ∧ lookup_prop "assignee" body
    = (if falsy_string assignee_email then None
       else Some (JObj [("email", JStr (default EmptyString assignee_email))]))
  ∧ lookup_prop "title" body = (if falsy_string title then None
                                else Some (JStr (default EmptyString title)))
  ∧ body.*1 ⊆ ["status"; "priority"; "disposition"; "assignee"; "title"].
Proof.
  intros Hurl Hsome body. split.
  - exists (fetch_call cfg "PATCH" url (JObj body)).
    unfold update_investigation. fold body.
    assert ((length body =? 0)%nat = false) as ->.
    { apply Nat.eqb_neq. intros Hlen. apply Hsome, update_body_empty.
      by apply nil_length_inv. }
    rewrite handler_world. unfold updateInvestigation, patch.
    split; [by apply request_sends|].
    repeat split. by eexists.
  - unfold body, update_body, optional_field, assignee_field.
    destruct (falsy_string status), (falsy_string priority),
      (falsy_string disposition), (falsy_string assignee_email),
      (falsy_string title); simpl; repeat split; set_solver.
Qed.

Lemma update_sends_given_fields_witness :
  ∃ call,
    sent (update_investigation (Sample.host (λ _, TimerFires)) Sample.config "abc"
            (Some "CLOSED") None None (Some "a@example.com") None Sample.world).1
    = [call]
    ∧ fc_method call = "PATCH"
    ∧ fc_url call = "https://us.api.example.com/idr/v2/investigations/abc".
Proof.
  destruct (update_sends_given_fields
              (Sample.host (λ _, TimerFires)) Sample.config "abc"
              (Some "CLOSED") None None (Some "a@example.com") None Sample.world
              (mkURL "https://us.api.example.com/idr/v2/investigations/abc"
                     None [] None)
              eq_refl)
    as [(call & Hsent & Hmethod & Hurl & _) _].
  { intros (Hstatus & _). discriminate Hstatus. }
  exists call. split; [exact Hsent|]. split; [exact Hmethod|exact Hurl].
Defined.

(** X18. When the URL of the investigations parses, [create_investigation]
    hands exactly one call to [fetch]: a POST of that URL whose body is the
    JSON text of an object with title, priority and status, always, and
    with disposition and assignee when they are given. *)
Theorem create_sends_body
    (rt : Runtime) (cfg : Rapid7Config) (title priority status : string)
    (disposition assignee_email : option string) (w : World) (url : URL) :
  request_url rt cfg "/idr/v2/investigations" None = Some url →
  let body := create_body title priority status disposition assignee_email in
  (∃ call,
     sent (create_investigation rt cfg title priority status disposition
             assignee_email w).1 = sent w ++ [call]
     ∧ fc_method call = "POST"
     ∧ fc_url call = Url.toString url
     ∧ fc_body call = Json.stringify (JObj body)
     ∧ is_Some (fc_body call))
  ∧ lookup_prop "title" body = Some (JStr title)
  ∧ lookup_prop "priority" body = Some (JStr priority)
  ∧ lookup_prop "status" body = Some (JStr status)
  ∧ lookup_prop "disposition" body
    = (if falsy_string disposition then None
       else Some (JStr (default EmptyString disposition)))
  ∧ lookup_prop "assignee" body
    = (if falsy_string assignee_email then None
       else Some (JObj [("email", JStr (default EmptyString assignee_email))])).
Proof.
  intros Hurl body. split.
  - exists (fetch_call cfg "POST" url (JObj body)).
    unfold create_investigation. fold body.
    rewrite handler_world. unfold createInvestigation, post.
    split; [by apply request_sends|].
    repeat split. by eexists.
  - unfold body, create_body, optional_field, assignee_field.
    by destruct (falsy_string disposition), (falsy_string assignee_email).
Qed.

Lemma create_sends_body_witness :
  ∃ call,
    sent (create_investigation (Sample.host (λ _, TimerFires)) Sample.config
            "Phishing" "HIGH" "OPEN" None None Sample.world).1 = [call]
    ∧ fc_method call = "POST".
Proof.
  destruct (create_sends_body
              (Sample.host (λ _, TimerFires)) Sample.config
              "Phishing" "HIGH" "OPEN" None None Sample.world
              (mkURL "https://us.api.example.com/idr/v2/investigations" None [] None)
              eq_refl)
    as [(call & Hsent & Hmethod & _) _].
  exists call. split; [exact Hsent|exact Hmethod].
Defined.













(** X23. When the URLs of the investigation and of its timeline parse,
    [get_investigation] hands two calls to [fetch], whatever comes of
    either: a GET of the investigation and then a GET of its timeline, both
    without body. *)
Theorem get_investigation_reads_both
    (rt : Runtime) (cfg : Rapid7Config) (investigation_id : string) (w : World)
    (url timeline_url : URL) :
  request_url rt cfg ("/idr/v2/investigations/" +:+ investigation_id) None
    = Some url →
  request_url rt cfg
    ("/idr/v2/investigations/" +:+ investigation_id +:+ "/timeline") (Some [])
    = Some timeline_url →
  sent (get_investigation rt cfg investigation_id w).1
  = sent w ++ [ mkFetchCall (Url.toString url) "GET"
                            (request_headers cfg) None;
                mkFetchCall (Url.toString timeline_url) "GET"
                            (request_headers cfg) None ].
Proof.
  intros Hurl Htimeline. unfold get_investigation.
  pose proof (request_sends rt cfg "GET" _ None JUndefined url Hurl w) as Hfirst.
  fold (get rt cfg ("/idr/v2/investigations/" +:+ investigation_id) None w)
    in Hfirst.
  fold (getInvestigation rt cfg investigation_id w) in Hfirst.
  destruct (getInvestigation rt cfg investigation_id w) as [w1 primary].
  pose proof (request_sends rt cfg "GET" _ (Some []) JUndefined timeline_url
                Htimeline w1) as Hsecond.
  fold (get rt cfg
          ("/idr/v2/investigations/" +:+ investigation_id +:+ "/timeline")
          (Some []) w1) in Hsecond.
  fold (getInvestigationTimeline rt cfg investigation_id w1) in Hsecond.
  destruct (getInvestigationTimeline rt cfg investigation_id w1) as [w2 secondary].
  simpl in *. rewrite Hsecond, Hfirst, <-app_assoc. done.
Qed.

Lemma get_investigation_reads_both_witness :
  length (sent (get_investigation (Sample.host (λ _, TimerFires)) Sample.config
                  "abc" Sample.world).1) = 2%nat.
Proof.
  rewrite (get_investigation_reads_both
             (Sample.host (λ _, TimerFires)) Sample.config "abc" Sample.world
             (mkURL "https://us.api.example.com/idr/v2/investigations/abc"
                    None [] None)
             (mkURL "https://us.api.example.com/idr/v2/investigations/abc/timeline"
                    None [] None)
             eq_refl eq_refl).
  reflexivity.
Defined.




(** X25. When the URL of the comments of the investigation parses,
    [add_investigation_comment] hands exactly one call to [fetch]: a POST
    of that URL whose body is the JSON object with the comment under [body]
    and then the visibility, both as quoted texts. *)
Theorem comment_sends_body
    (rt : Runtime) (cfg : Rapid7Config)
    (investigation_id commentBody visibility : string) (w : World) (url : URL) :
  request_url rt cfg
    ("/idr/v2/investigations/" +:+ investigation_id +:+ "/comments") None
    = Some url →
  ∃ call,
    sent (add_investigation_comment rt cfg investigation_id commentBody
            visibility w).1 = sent w ++ [call]
    ∧ fc_method call = "POST"
    ∧ fc_url call = Url.toString url
    ∧ fc_body call =
        Some ("{" +:+ Json.quote "body" +:+ ":" +:+ Json.quote commentBody
              +:+ "," +:+ Json.quote "visibility" +:+ ":"
              +:+ Json.quote visibility +:+ "}").
Proof.
  intros Hurl.
  exists (fetch_call cfg "POST" url
            (JObj [("body", JStr commentBody); ("visibility", JStr visibility)])).
  unfold add_investigation_comment. rewrite handler_world.
  unfold addInvestigationComment, post.
  split; [by apply request_sends|]. split; [done|]. split; [done|].
  unfold fetch_call. cbn [fc_body]. unfold request_body, Json.stringify.
  cbn [truthy Json.serialize omap fmap option_fmap option_map fst snd].
  unfold Json.wrap. simpl Str.join. simpl String.eqb.
  cbv iota. rewrite !app_assoc_s, !app_empty_l. reflexivity.
Qed.

Lemma comment_sends_body_witness :
  ∃ call,
    sent (add_investigation_comment (Sample.host (λ _, TimerFires)) Sample.config
            "abc" "seen" "PUBLIC" Sample.world).1 = [call]
    ∧ fc_method call = "POST"
    ∧ fc_url call
      = "https://us.api.example.com/idr/v2/investigations/abc/comments".
Proof.
  destruct (comment_sends_body (Sample.host (λ _, TimerFires)) Sample.config
              "abc" "seen" "PUBLIC" Sample.world
              (mkURL "https://us.api.example.com/idr/v2/investigations/abc/comments"
                     None [] None)
              eq_refl)
    as (call & Hsent & Hmethod & Hurl & _).
  exists call. split; [exact Hsent|]. split; [exact Hmethod|exact Hurl].
Defined.
